(** * BitmapRegionDecoder: the JNI region-decoder glue, verified

    A shallow embedding of [core/jni/android/graphics/BitmapRegionDecoder.cpp]:
    the [SkBitmapRegionDecoder] handle, its construction from a stream
    ([createBitmapRegionDecoder]), the region decode entry point
    ([nativeDecodeRegion]) and the two size queries.

    The C++ code is glue: it moves data between Java objects (the
    [BitmapFactory.Options] bundle, [Bitmap] objects), the native heap
    (streams, decoders, handles) and the Skia image decoder.  The embedding
    therefore threads an explicit [World] through every function: the native
    heap, the Java heap, the global list of cancellable decodes, the pending
    Java exception and the sequence of calls made on the decoder backend. *)

From Stdlib Require Import ZArith String List Lia.
From stdpp Require Import base option gmap strings list.

Local Open Scope Z_scope.

(** ** Addresses, references and machine integers *)

(** Native objects are identified by their address, Java objects by their
    reference; [None] is the null pointer / null reference. *)
Abbreviation ptr := positive.
Abbreviation jref := positive.

(** [jint] is a 32-bit two's complement integer. *)
Definition jint_min : Z := - 2 ^ 31.
Definition jint_max : Z := 2 ^ 31 - 1.

Definition jint_range (z : Z) : Prop := jint_min <= z <= jint_max.

Definition jint_wrap (z : Z) : Z := (z + 2 ^ 31) mod 2 ^ 32 - 2 ^ 31.

Definition jint_add (a b : Z) : Z := jint_wrap (a + b).

(** ** Types that come from headers outside this file

    [SkColorType] and [SkImageDecoder::Format] are Skia enumerations,
    [Bitmap.Config] is a Java class, and the concrete decoder subclasses
    (with their private state, tile index included) live in Skia.  Only
    [kUnknown_SkColorType] is named by the code, so they are parameters. *)
Class SkiaTypes := {
  SkColorType : Type;
  kUnknown_SkColorType : SkColorType;
  Format : Type;
  Config : Type;
  DecoderImpl : Type;
}.

Section Model.
Context `{SkiaTypes}.

(** ** Native objects *)

Definition Stream := list Byte.byte.

(** [SkIRect]: the four public fields. *)
Record SkIRect := {
  fLeft : Z;
  fTop : Z;
  fRight : Z;
  fBottom : Z;
}.

(** [SkBitmap], as far as this file looks at it: its dimensions and the pixel
    storage it points to (null for a default-constructed bitmap). *)
Record SkBitmap := {
  bmWidth : Z;
  bmHeight : Z;
  fPixelRef : option ptr;
}.

(** [SkBitmap bitmap;] *)
Definition emptyBitmap : SkBitmap :=
  {| bmWidth := 0; bmHeight := 0; fPixelRef := None |}.

(** [JavaPixelAllocator]: remembers the storage object of the last
    allocation until [getStorageObjAndReset] hands it out.  The storage
    object is a native bitmap; it is represented by its dimensions and
    pixel storage. *)
Record JavaPixelAllocator := {
  fStorageObj : option SkBitmap;
}.

(** [SkImageDecoder]: the settings the code writes through the setters, the
    allocator installed at construction, the stream the decoder owns once the
    tile index is built, and the subclass state. *)
Record SkImageDecoder := {
  fSampleSize : Z;
  fDitherImage : bool;
  fPreferQualityOverSpeed : bool;
  fRequireUnpremultipliedColors : bool;
  fAllocator : option JavaPixelAllocator;
  fStream : option ptr;
  fImpl : DecoderImpl;
}.

(** [class SkBitmapRegionDecoder] (lines 42-67). *)
Record SkBitmapRegionDecoder := {
  fDecoder : ptr;
  fWidth : Z;
  fHeight : Z;
}.

(** ** Java objects *)

(** The fields of [BitmapFactory.Options] reached through the
    [gOptions_*FieldID] field ids. *)
Record Options := {
  gOptions_sampleSize : Z;
  gOptions_width : Z;
  gOptions_height : Z;
  gOptions_mime : option string;
  gOptions_config : option Config;
  gOptions_dither : bool;
  gOptions_preferQualityOverSpeed : bool;
  gOptions_bitmap : option jref;
  gOptions_premultiplied : bool;
  gOptions_mCancel : bool;
}.

(** A Java [Bitmap]: the native bitmap it wraps and the flags it was
    created with. *)
Record JavaBitmap := {
  jbNative : option SkBitmap;
  jbCreateFlags : Z;
}.

(** ** Calls on the backend

    Every method the code invokes on the decoder, and the one notification it
    sends to a bitmap, in program order.  [CallDecodeSubset] records the
    decoder as the backend sees it when the call is made. *)
Inductive Call :=
  | CallFactory (stream : ptr)
  | CallSetAllocator (d : ptr)
  | CallBuildTileIndex (d : ptr) (stream : ptr)
  | CallGetFormatName (d : ptr)
  | CallSetDitherImage (d : ptr) (b : bool)
  | CallSetPreferQualityOverSpeed (d : ptr) (b : bool)
  | CallSetRequireUnpremultipliedColors (d : ptr) (b : bool)
  | CallSetSampleSize (d : ptr) (n : Z)
  | CallDecodeSubset (d : ptr) (self : SkImageDecoder) (bm : SkBitmap)
                     (rect : SkIRect) (pref : SkColorType)
  | CallGetFormat (d : ptr)
  | CallGetAllocator (d : ptr)
  | CallNotifyPixelsChanged (bm : SkBitmap).

(** ** The world *)

Record World := {
  streams : gmap ptr Stream;
  decoders : gmap ptr SkImageDecoder;
  regionDecoders : gmap ptr SkBitmapRegionDecoder;
  optionsObjs : gmap jref Options;
  bitmapObjs : gmap jref JavaBitmap;
  gAutoDecoderCancel : list (jref * ptr);
  pendingException : option string;
  calls : list Call;
}.

Definition set_streams (f : gmap ptr Stream -> gmap ptr Stream) (w : World) : World :=
  {| streams := f (streams w); decoders := decoders w;
     regionDecoders := regionDecoders w; optionsObjs := optionsObjs w;
     bitmapObjs := bitmapObjs w; gAutoDecoderCancel := gAutoDecoderCancel w;
     pendingException := pendingException w; calls := calls w |}.

Definition set_decoders (f : gmap ptr SkImageDecoder -> gmap ptr SkImageDecoder)
    (w : World) : World :=
  {| streams := streams w; decoders := f (decoders w);
     regionDecoders := regionDecoders w; optionsObjs := optionsObjs w;
     bitmapObjs := bitmapObjs w; gAutoDecoderCancel := gAutoDecoderCancel w;
     pendingException := pendingException w; calls := calls w |}.

Definition set_regionDecoders
    (f : gmap ptr SkBitmapRegionDecoder -> gmap ptr SkBitmapRegionDecoder)
    (w : World) : World :=
  {| streams := streams w; decoders := decoders w;
     regionDecoders := f (regionDecoders w); optionsObjs := optionsObjs w;
     bitmapObjs := bitmapObjs w; gAutoDecoderCancel := gAutoDecoderCancel w;
     pendingException := pendingException w; calls := calls w |}.

Definition set_optionsObjs (f : gmap jref Options -> gmap jref Options)
    (w : World) : World :=
  {| streams := streams w; decoders := decoders w;
     regionDecoders := regionDecoders w; optionsObjs := f (optionsObjs w);
     bitmapObjs := bitmapObjs w; gAutoDecoderCancel := gAutoDecoderCancel w;
     pendingException := pendingException w; calls := calls w |}.

Definition set_bitmapObjs (f : gmap jref JavaBitmap -> gmap jref JavaBitmap)
    (w : World) : World :=
  {| streams := streams w; decoders := decoders w;
     regionDecoders := regionDecoders w; optionsObjs := optionsObjs w;
     bitmapObjs := f (bitmapObjs w); gAutoDecoderCancel := gAutoDecoderCancel w;
     pendingException := pendingException w; calls := calls w |}.

Definition set_gAutoDecoderCancel
    (f : list (jref * ptr) -> list (jref * ptr)) (w : World) : World :=
  {| streams := streams w; decoders := decoders w;
     regionDecoders := regionDecoders w; optionsObjs := optionsObjs w;
     bitmapObjs := bitmapObjs w; gAutoDecoderCancel := f (gAutoDecoderCancel w);
     pendingException := pendingException w; calls := calls w |}.

Definition set_pendingException (e : option string) (w : World) : World :=
  {| streams := streams w; decoders := decoders w;
     regionDecoders := regionDecoders w; optionsObjs := optionsObjs w;
     bitmapObjs := bitmapObjs w; gAutoDecoderCancel := gAutoDecoderCancel w;
     pendingException := e; calls := calls w |}.

Definition set_calls (f : list Call -> list Call) (w : World) : World :=
  {| streams := streams w; decoders := decoders w;
     regionDecoders := regionDecoders w; optionsObjs := optionsObjs w;
     bitmapObjs := bitmapObjs w; gAutoDecoderCancel := gAutoDecoderCancel w;
     pendingException := pendingException w; calls := f (calls w) |}.

(** ** The monad of native code

    A computation reads and writes the world; it has no result ([None]) when
    the C++ behaviour is undefined: a dangling pointer or reference is
    dereferenced. *)
Definition M (A : Type) : Type := World -> option (A * World).

Definition ret {A} (a : A) : M A := fun w => Some (a, w).

Definition bind {A B} (m : M A) (k : A -> M B) : M B :=
  fun w => match m w with
           | Some (a, w') => k a w'
           | None => None
           end.

Definition undefined {A} : M A := fun _ => None.

Definition modify (f : World -> World) : M unit := fun w => Some (tt, f w).

Definition gets {A} (f : World -> A) : M A := fun w => Some (f w, w).

(** Dereference: reading through a dangling pointer is undefined. *)
Definition deref {A} (heap : World -> gmap positive A) (p : positive) : M A :=
  fun w => match heap w !! p with
           | Some a => Some (a, w)
           | None => None
           end.

Definition log (c : Call) : M unit := modify (set_calls (fun l => l ++ [c])).

#[global] Instance M_ret : MRet M := @ret.
#[global] Instance M_bind : MBind M := fun A B k m => bind m k.

(** ** Collaborators outside this file

    What the decoder backend and the neighbouring JNI helpers compute is not
    decided by this file; it is a parameter of the development.

    - [Factory]: [SkImageDecoder::Factory] sniffs the stream and returns a
      new decoder, or null when no format recognizes it.
    - [buildTileIndex]: the index build; on success it yields the decoder's
      new private state and the image dimensions.
    - [decodeSubset]: the subset decode, with everything it may leave behind.
    - [getFormat], [getFormatName]: the decoder's format and its name.
    - [getNativeBitmapColorType], [getMimeTypeString]: the JNI helpers of
      Graphics.cpp and BitmapFactory.cpp.
    - [kBitmapCreateFlag_Premultiplied]: the flag constant of GraphicsJNI.h. *)

Record DecodeOutcome := {
  decoded : bool;
  outBitmap : SkBitmap;
  outStorage : option SkBitmap;
  outImpl : DecoderImpl;
}.

Class Collaborators := {
  Factory : Stream -> option SkImageDecoder;
  buildTileIndex : SkImageDecoder -> Stream -> option (DecoderImpl * Z * Z);
  decodeSubset : SkImageDecoder -> SkBitmap -> SkIRect -> SkColorType -> DecodeOutcome;
  getFormat : SkImageDecoder -> Format;
  getFormatName : SkImageDecoder -> string;
  getNativeBitmapColorType : option Config -> SkColorType;
  getMimeTypeString : Format -> option string;
  kBitmapCreateFlag_Premultiplied : Z;
}.

Context `{Collaborators}.

(** ** Field updates *)

Definition with_fSampleSize (n : Z) (d : SkImageDecoder) : SkImageDecoder :=
  {| fSampleSize := n; fDitherImage := fDitherImage d;
     fPreferQualityOverSpeed := fPreferQualityOverSpeed d;
     fRequireUnpremultipliedColors := fRequireUnpremultipliedColors d;
     fAllocator := fAllocator d; fStream := fStream d; fImpl := fImpl d |}.

Definition with_fDitherImage (b : bool) (d : SkImageDecoder) : SkImageDecoder :=
  {| fSampleSize := fSampleSize d; fDitherImage := b;
     fPreferQualityOverSpeed := fPreferQualityOverSpeed d;
     fRequireUnpremultipliedColors := fRequireUnpremultipliedColors d;
     fAllocator := fAllocator d; fStream := fStream d; fImpl := fImpl d |}.

Definition with_fPreferQualityOverSpeed (b : bool) (d : SkImageDecoder) : SkImageDecoder :=
  {| fSampleSize := fSampleSize d; fDitherImage := fDitherImage d;
     fPreferQualityOverSpeed := b;
     fRequireUnpremultipliedColors := fRequireUnpremultipliedColors d;
     fAllocator := fAllocator d; fStream := fStream d; fImpl := fImpl d |}.

Definition with_fRequireUnpremultipliedColors (b : bool) (d : SkImageDecoder)
    : SkImageDecoder :=
  {| fSampleSize := fSampleSize d; fDitherImage := fDitherImage d;
     fPreferQualityOverSpeed := fPreferQualityOverSpeed d;
     fRequireUnpremultipliedColors := b;
     fAllocator := fAllocator d; fStream := fStream d; fImpl := fImpl d |}.

Definition with_fAllocator (a : option JavaPixelAllocator) (d : SkImageDecoder)
    : SkImageDecoder :=
  {| fSampleSize := fSampleSize d; fDitherImage := fDitherImage d;
     fPreferQualityOverSpeed := fPreferQualityOverSpeed d;
     fRequireUnpremultipliedColors := fRequireUnpremultipliedColors d;
     fAllocator := a; fStream := fStream d; fImpl := fImpl d |}.

Definition with_fStream (s : option ptr) (d : SkImageDecoder) : SkImageDecoder :=
  {| fSampleSize := fSampleSize d; fDitherImage := fDitherImage d;
     fPreferQualityOverSpeed := fPreferQualityOverSpeed d;
     fRequireUnpremultipliedColors := fRequireUnpremultipliedColors d;
     fAllocator := fAllocator d; fStream := s; fImpl := fImpl d |}.

Definition with_fImpl (i : DecoderImpl) (d : SkImageDecoder) : SkImageDecoder :=
  {| fSampleSize := fSampleSize d; fDitherImage := fDitherImage d;
     fPreferQualityOverSpeed := fPreferQualityOverSpeed d;
     fRequireUnpremultipliedColors := fRequireUnpremultipliedColors d;
     fAllocator := fAllocator d; fStream := fStream d; fImpl := i |}.

Definition with_width (v : Z) (o : Options) : Options :=
  {| gOptions_sampleSize := gOptions_sampleSize o; gOptions_width := v;
     gOptions_height := gOptions_height o; gOptions_mime := gOptions_mime o;
     gOptions_config := gOptions_config o; gOptions_dither := gOptions_dither o;
     gOptions_preferQualityOverSpeed := gOptions_preferQualityOverSpeed o;
     gOptions_bitmap := gOptions_bitmap o;
     gOptions_premultiplied := gOptions_premultiplied o;
     gOptions_mCancel := gOptions_mCancel o |}.

Definition with_height (v : Z) (o : Options) : Options :=
  {| gOptions_sampleSize := gOptions_sampleSize o; gOptions_width := gOptions_width o;
     gOptions_height := v; gOptions_mime := gOptions_mime o;
     gOptions_config := gOptions_config o; gOptions_dither := gOptions_dither o;
     gOptions_preferQualityOverSpeed := gOptions_preferQualityOverSpeed o;
     gOptions_bitmap := gOptions_bitmap o;
     gOptions_premultiplied := gOptions_premultiplied o;
     gOptions_mCancel := gOptions_mCancel o |}.

Definition with_mime (v : option string) (o : Options) : Options :=
  {| gOptions_sampleSize := gOptions_sampleSize o; gOptions_width := gOptions_width o;
     gOptions_height := gOptions_height o; gOptions_mime := v;
     gOptions_config := gOptions_config o; gOptions_dither := gOptions_dither o;
     gOptions_preferQualityOverSpeed := gOptions_preferQualityOverSpeed o;
     gOptions_bitmap := gOptions_bitmap o;
     gOptions_premultiplied := gOptions_premultiplied o;
     gOptions_mCancel := gOptions_mCancel o |}.

(** ** JNI primitives *)

(** [env->Get*Field(options, id)] *)
Definition GetField {A} (field : Options -> A) (options : jref) : M A :=
  o ← deref optionsObjs options; mret (field o).

(** [env->Set*Field(options, id, v)] *)
Definition SetField (update : Options -> Options) (options : jref) : M unit :=
  o ← deref optionsObjs options;
  modify (set_optionsObjs (<[options := update o]>)).

(** [doThrowIOE(env, msg)]: an [IOException] with this message is pending. *)
Definition doThrowIOE (msg : string) : M unit :=
  modify (set_pendingException (Some msg)).

(** [nullObjectReturn(msg)]: the message only goes to the debug log. *)
Definition nullObjectReturn {A} (msg : string) : M (option A) := mret None.

(** [snprintf(msg, sizeof(msg), ...)] into [char msg[100]]: at most 99
    characters survive. *)
Definition snprintf100 (formatted : string) : string := substring 0 99 formatted.

(** ** Operations on native objects *)

(** [delete stream] *)
Definition delete_stream (stream : ptr) : M unit :=
  _ ← deref streams stream;
  modify (set_streams (delete stream)).

(** [SkImageDecoder::Factory(stream)]: the new decoder does not own a
    stream yet. *)
Definition SkImageDecoder_Factory (stream : ptr) : M (option ptr) :=
  s ← deref streams stream;
  log (CallFactory stream);;
  match Factory s with
  | None => mret None
  | Some d =>
      p ← gets (fun w => fresh (dom (decoders w)));
      modify (set_decoders (<[p := with_fStream None d]>));;
      mret (Some p)
  end.

(** [new JavaPixelAllocator(env); decoder->setAllocator(..); ..->unref()]
    (lines 80-82): the decoder holds the only reference. *)
Definition setAllocator (decoder : ptr) (a : JavaPixelAllocator) : M unit :=
  d ← deref decoders decoder;
  log (CallSetAllocator decoder);;
  modify (set_decoders (<[decoder := with_fAllocator (Some a) d]>)).

(** [decoder->buildTileIndex(stream, &width, &height)].  The ownership
    contract is the one the code states at line 84: the stream passes to the
    decoder, or is deleted on failure. *)
Definition SkImageDecoder_buildTileIndex (decoder stream : ptr) : M (option (Z * Z)) :=
  d ← deref decoders decoder;
  s ← deref streams stream;
  log (CallBuildTileIndex decoder stream);;
  match buildTileIndex d s with
  | Some (impl, w, h) =>
      modify (set_decoders (<[decoder := with_fImpl impl (with_fStream (Some stream) d)]>));;
      mret (Some (w, h))
  | None =>
      modify (set_streams (delete stream));;
      mret None
  end.

(** [decoder->getFormatName()] *)
Definition SkImageDecoder_getFormatName (decoder : ptr) : M string :=
  d ← deref decoders decoder;
  log (CallGetFormatName decoder);;
  mret (getFormatName d).

(** [decoder->getFormat()] *)
Definition SkImageDecoder_getFormat (decoder : ptr) : M Format :=
  d ← deref decoders decoder;
  log (CallGetFormat decoder);;
  mret (getFormat d).

(** [delete decoder]: a decoder that owns its stream takes it along. *)
Definition delete_decoder (decoder : ptr) : M unit :=
  d ← deref decoders decoder;
  modify (set_decoders (delete decoder));;
  match fStream d with
  | Some s => modify (set_streams (delete s))
  | None => mret tt
  end.

(** The setters of [SkImageDecoder] store their argument. *)
Definition setDitherImage (decoder : ptr) (b : bool) : M unit :=
  d ← deref decoders decoder;
  log (CallSetDitherImage decoder b);;
  modify (set_decoders (<[decoder := with_fDitherImage b d]>)).

Definition setPreferQualityOverSpeed (decoder : ptr) (b : bool) : M unit :=
  d ← deref decoders decoder;
  log (CallSetPreferQualityOverSpeed decoder b);;
  modify (set_decoders (<[decoder := with_fPreferQualityOverSpeed b d]>)).

Definition setRequireUnpremultipliedColors (decoder : ptr) (b : bool) : M unit :=
  d ← deref decoders decoder;
  log (CallSetRequireUnpremultipliedColors decoder b);;
  modify (set_decoders (<[decoder := with_fRequireUnpremultipliedColors b d]>)).

Definition setSampleSize (decoder : ptr) (n : Z) : M unit :=
  d ← deref decoders decoder;
  log (CallSetSampleSize decoder n);;
  modify (set_decoders (<[decoder := with_fSampleSize n d]>)).

(** What a subset decode leaves in the decoder: the storage its allocator
    holds and its private state. *)
Definition after_decode (r : DecodeOutcome) (d : SkImageDecoder) : SkImageDecoder :=
  with_fImpl (outImpl r)
    (with_fAllocator
       ((fun _ => {| fStorageObj := outStorage r |}) <$> fAllocator d) d).

(** [decoder->decodeSubset(bitmap, rect, pref)]: returns the success flag
    and the bitmap as the decoder leaves it. *)
Definition SkImageDecoder_decodeSubset (decoder : ptr) (bm : SkBitmap)
    (rect : SkIRect) (pref : SkColorType) : M (bool * SkBitmap) :=
  d ← deref decoders decoder;
  log (CallDecodeSubset decoder d bm rect pref);;
  let r := decodeSubset d bm rect pref in
  modify (set_decoders (<[decoder := after_decode r d]>));;
  mret (decoded r, outBitmap r).

(** [decoder->getAllocator()] followed by
    [allocator->getStorageObjAndReset()] (lines 239 and 243). *)
Definition getStorageObjAndReset (decoder : ptr) : M (option SkBitmap) :=
  d ← deref decoders decoder;
  log (CallGetAllocator decoder);;
  match fAllocator d with
  | None => undefined
  | Some a =>
      modify (set_decoders
        (<[decoder := with_fAllocator (Some {| fStorageObj := None |}) d]>));;
      mret (fStorageObj a)
  end.

(** [bitmap.notifyPixelsChanged()] *)
Definition notifyPixelsChanged (bm : SkBitmap) : M unit :=
  log (CallNotifyPixelsChanged bm).

(** Modelled from the spec: [GraphicsJNI::getSkBitmap] (Graphics.cpp) is
    not under src/.  The reuse buffer is passed through as the decode
    target: the local bitmap becomes a view of the Java bitmap's native
    bitmap. *)
Definition getSkBitmap (tileBitmap : jref) : M SkBitmap :=
  jb ← deref bitmapObjs tileBitmap;
  match jbNative jb with
  | Some bm => mret bm
  | None => undefined
  end.

(** Modelled from the spec: [GraphicsJNI::createBitmap] (Graphics.cpp) is
    not under src/.  It finalizes the freshly allocated buffer: a new Java
    [Bitmap] around the storage object, created with the given flags. *)
Definition createBitmap (storage : option SkBitmap) (bitmapCreateFlags : Z)
    : M (option jref) :=
  r ← gets (fun w => fresh (dom (bitmapObjs w)));
  modify (set_bitmapObjs
    (<[r := {| jbNative := storage; jbCreateFlags := bitmapCreateFlags |}]>));;
  mret (Some r).

(** ** The cancellation guard *)

(** Modelled from the spec: [AutoDecoderCancel] (AutoDecodeCancel.h and
    AutoDecodeCancel.cpp) is not under src/.  It is a scoped registration:
    when a cancellation-capable configuration was supplied, construction
    registers the pair of the configuration and the in-flight decoder with
    the process-wide list, and destruction removes that registration. *)
Definition AutoDecoderCancel_ctor (options : option jref) (decoder : ptr) : M unit :=
  match options with
  | Some o => modify (set_gAutoDecoderCancel (cons (o, decoder)))
  | None => mret tt
  end.

(** Modelled from the spec: the removal of one registration from the list
    (AutoDecodeCancel.cpp is not under src/).  Registrations of the same
    pair cannot be told apart, so the first one goes. *)
Fixpoint unregister (r : jref * ptr) (l : list (jref * ptr)) : list (jref * ptr) :=
  match l with
  | [] => []
  | x :: l' => if decide (x = r) then l' else x :: unregister r l'
  end.

(** Modelled from the spec: the destructor of [AutoDecoderCancel]
    (AutoDecodeCancel.cpp is not under src/).  On exit from the decode call
    the registration is unregistered. *)
Definition AutoDecoderCancel_dtor (options : option jref) (decoder : ptr) : M unit :=
  match options with
  | Some o => modify (set_gAutoDecoderCancel (unregister (o, decoder)))
  | None => mret tt
  end.

(** [AutoDecoderCancel adc(options, decoder);] declared in a function body:
    the object lives until the function returns, and C++ runs its destructor
    on every [return] that follows the declaration, after the returned value
    has been computed. *)
Definition with_AutoDecoderCancel {A} (options : option jref) (decoder : ptr)
    (rest : M A) : M A :=
  AutoDecoderCancel_ctor options decoder;;
  r ← rest;
  AutoDecoderCancel_dtor options decoder;;
  mret r.

(** ** The region decoder handle (lines 42-67) *)

(** [new SkBitmapRegionDecoder(decoder, width, height)] *)
Definition new_SkBitmapRegionDecoder (decoder : ptr) (width height : Z) : M ptr :=
  p ← gets (fun w => fresh (dom (regionDecoders w)));
  modify (set_regionDecoders
    (<[p := {| fDecoder := decoder; fWidth := width; fHeight := height |}]>));;
  mret p.

(** [~SkBitmapRegionDecoder()] run by [delete brd] *)
Definition delete_SkBitmapRegionDecoder (brd : ptr) : M unit :=
  this ← deref regionDecoders brd;
  delete_decoder (fDecoder this);;
  modify (set_regionDecoders (delete brd)).

(** [SkBitmapRegionDecoder::decodeRegion] *)
Definition decodeRegion (brd : ptr) (bm : SkBitmap) (rect : SkIRect)
    (pref : SkColorType) (sampleSize : Z) : M (bool * SkBitmap) :=
  this ← deref regionDecoders brd;
  setSampleSize (fDecoder this) sampleSize;;
  SkImageDecoder_decodeSubset (fDecoder this) bm rect pref.

(** [SkBitmapRegionDecoder::getWidth], [getHeight] and [getDecoder] *)
Definition getWidth (brd : ptr) : M Z :=
  this ← deref regionDecoders brd; mret (fWidth this).

Definition getHeight (brd : ptr) : M Z :=
  this ← deref regionDecoders brd; mret (fHeight this).

Definition getDecoder (brd : ptr) : M ptr :=
  this ← deref regionDecoders brd; mret (fDecoder this).

(** Modelled from the spec: [GraphicsJNI::createBitmapRegionDecoder]
    (Graphics.cpp) is not under src/.  It returns the handle holding the
    backend and the discovered dimensions; the Java object is identified
    with the native handle it wraps. *)
Definition GraphicsJNI_createBitmapRegionDecoder (bm : ptr) : M (option ptr) :=
  mret (Some bm).

(** ** Construction (lines 69-96) *)

Definition msg_unsupported : string := "Image format not supported".

Definition msg_index_failed (formatName : string) : string :=
  snprintf100 ("Image failed to decode using " ++ formatName ++ " decoder").

Definition createBitmapRegionDecoder (stream : ptr) : M (option ptr) :=
  decoder ← SkImageDecoder_Factory stream;
  match decoder with
  | None =>
      delete_stream stream;;
      doThrowIOE msg_unsupported;;
      nullObjectReturn "SkImageDecoder::Factory returned null"
  | Some decoder =>
      setAllocator decoder {| fStorageObj := None |};;
      r ← SkImageDecoder_buildTileIndex decoder stream;
      match r with
      | None =>
          name ← SkImageDecoder_getFormatName decoder;
          doThrowIOE (msg_index_failed name);;
          delete_decoder decoder;;
          nullObjectReturn "decoder->buildTileIndex returned false"
      | Some (width, height) =>
          bm ← new_SkBitmapRegionDecoder decoder width height;
          GraphicsJNI_createBitmapRegionDecoder bm
      end
  end.

(** ** Region decode (lines 167-245) *)

(** The locals of [nativeDecodeRegion] that the options bundle decides. *)
Record DecodeLocals := {
  sampleSize : Z;
  prefColorType : SkColorType;
  doDither : bool;
  preferQualityOverSpeed : bool;
  requireUnpremultiplied : bool;
  tileBitmap : option jref;
}.

(** Lines 172-176 and [jobject tileBitmap = NULL]. *)
Definition defaultLocals : DecodeLocals :=
  {| sampleSize := 1;
     prefColorType := kUnknown_SkColorType;
     doDither := true;
     preferQualityOverSpeed := false;
     requireUnpremultiplied := false;
     tileBitmap := None |}.

(** Lines 178-193. *)
Definition readOptions (options : option jref) : M DecodeLocals :=
  match options with
  | None => mret defaultLocals
  | Some o =>
      sampleSize ← GetField gOptions_sampleSize o;
      (* initialize these, in case we fail later on *)
      SetField (with_width (-1)) o;;
      SetField (with_height (-1)) o;;
      SetField (with_mime None) o;;
      jconfig ← GetField gOptions_config o;
      let prefColorType := getNativeBitmapColorType jconfig in
      doDither ← GetField gOptions_dither o;
      preferQualityOverSpeed ← GetField gOptions_preferQualityOverSpeed o;
      (* Get the bitmap for re-use if it exists. *)
      tileBitmap ← GetField gOptions_bitmap o;
      premultiplied ← GetField gOptions_premultiplied o;
      mret {| sampleSize := sampleSize;
              prefColorType := prefColorType;
              doDither := doDither;
              preferQualityOverSpeed := preferQualityOverSpeed;
              requireUnpremultiplied := negb premultiplied;
              tileBitmap := tileBitmap |}
  end.

(** Lines 207-211. *)
Definition region_of (start_x start_y width height : Z) : SkIRect :=
  {| fLeft := start_x;
     fTop := start_y;
     fRight := jint_add start_x width;
     fBottom := jint_add start_y height |}.

(** Lines 241-242. *)
Definition bitmapCreateFlags_of (requireUnpremultiplied : bool) : Z :=
  if negb requireUnpremultiplied
  then Z.lor 0 kBitmapCreateFlag_Premultiplied
  else 0.

Definition nativeDecodeRegion (brdHandle : ptr)
    (start_x start_y width height : Z) (options : option jref) : M (option jref) :=
  decoder ← getDecoder brdHandle;
  l ← readOptions options;
  setDitherImage decoder (doDither l);;
  setPreferQualityOverSpeed decoder (preferQualityOverSpeed l);;
  setRequireUnpremultipliedColors decoder (requireUnpremultiplied l);;
  with_AutoDecoderCancel options decoder (
    (* the race with requestCancelDecode *)
    cancel ← match options with
             | Some o => GetField gOptions_mCancel o
             | None => mret false
             end;
    if (cancel : bool) then nullObjectReturn "gOptions_mCancelID" else
    let region := region_of start_x start_y width height in
    bm ← match tileBitmap l with
         | Some tb => getSkBitmap tb   (* Re-use bitmap. *)
         | None => mret emptyBitmap
         end;
    r ← decodeRegion brdHandle bm region (prefColorType l) (sampleSize l);
    let '(ok, bm) := r in
    if negb ok then nullObjectReturn "decoder->decodeRegion returned false" else
    (* update options (if any) *)
    match options with
    | Some o =>
        SetField (with_width (bmWidth bm)) o;;
        SetField (with_height (bmHeight bm)) o;;
        format ← SkImageDecoder_getFormat decoder;
        SetField (with_mime (getMimeTypeString format)) o
    | None => mret tt
    end;;
    match tileBitmap l with
    | Some tb =>
        notifyPixelsChanged bm;;
        mret (Some tb)
    | None =>
        let bitmapCreateFlags := bitmapCreateFlags_of (requireUnpremultiplied l) in
        storage ← getStorageObjAndReset decoder;
        createBitmap storage bitmapCreateFlags
    end).

(** ** Queries and teardown (lines 247-260) *)

Definition nativeGetHeight (brdHandle : ptr) : M Z := getHeight brdHandle.

Definition nativeGetWidth (brdHandle : ptr) : M Z := getWidth brdHandle.

Definition nativeClean (brdHandle : ptr) : M unit :=
  delete_SkBitmapRegionDecoder brdHandle.

(** ** Well-formed calls

    A handle is live when it points to a region decoder whose backend is
    allocated and has its allocator installed, as construction leaves it.
    An options reference is valid when it is null, or points to a bundle
    whose reuse bitmap, if any, is a Java bitmap with a native bitmap. *)
Definition live_handle (w : World) (brdHandle : ptr) : bool :=
  match regionDecoders w !! brdHandle with
  | Some brd =>
      match decoders w !! fDecoder brd with
      | Some d => bool_decide (is_Some (fAllocator d))
      | None => false
      end
  | None => false
  end.

Definition valid_bitmap (w : World) (b : option jref) : bool :=
  match b with
  | None => true
  | Some tb =>
      match bitmapObjs w !! tb with
      | Some jb => bool_decide (is_Some (jbNative jb))
      | None => false
      end
  end.

Definition valid_options (w : World) (options : option jref) : bool :=
  match options with
  | None => true
  | Some o =>
      match optionsObjs w !! o with
      | Some opts => valid_bitmap w (gOptions_bitmap opts)
      | None => false
      end
  end.

(** Any number of [nativeDecodeRegion] calls, on any handles and with any
    arguments, one after the other. *)
Inductive decode_calls : World -> World -> Prop :=
  | decode_calls_refl w : decode_calls w w
  | decode_calls_step w w1 w2 brdHandle start_x start_y width height options r :
      nativeDecodeRegion brdHandle start_x start_y width height options w
        = Some (r, w1) ->
      decode_calls w1 w2 ->
      decode_calls w w2.

(** ** What a call computes

    The data flow of [nativeDecodeRegion], named piece by piece so that the
    execution lemmas can state the world a call leaves behind. *)

(** The bundle behind an options reference. *)
Definition bundle (w : World) (options : option jref) : option Options :=
  o ← options; optionsObjs w !! o.

(** The locals once the entry block has run. *)
Definition locals_of (opts : option Options) : DecodeLocals :=
  match opts with
  | None => defaultLocals
  | Some o =>
      {| sampleSize := gOptions_sampleSize o;
         prefColorType := getNativeBitmapColorType (gOptions_config o);
         doDither := gOptions_dither o;
         preferQualityOverSpeed := gOptions_preferQualityOverSpeed o;
         requireUnpremultiplied := negb (gOptions_premultiplied o);
         tileBitmap := gOptions_bitmap o |}
  end.

(** The cancel flag read at line 203. *)
Definition cancel_requested (opts : option Options) : bool :=
  match opts with
  | Some o => gOptions_mCancel o
  | None => false
  end.

(** The bitmap handed to the decoder as its target. *)
Definition target_bitmap (w : World) (tb : option jref) : option SkBitmap :=
  match tb with
  | None => Some emptyBitmap
  | Some r => jb ← bitmapObjs w !! r; jbNative jb
  end.

(** The bundle as the entry block of [nativeDecodeRegion] leaves it. *)
Definition reset_outputs (o : Options) : Options :=
  with_mime None (with_height (-1) (with_width (-1) o)).

(** The bundle after a successful decode with outcome [r] on decoder [d]. *)
Definition record_output (r : DecodeOutcome) (d : SkImageDecoder) (o : Options)
    : Options :=
  with_mime (getMimeTypeString (getFormat (after_decode r d)))
    (with_height (bmHeight (outBitmap r))
       (with_width (bmWidth (outBitmap r)) (reset_outputs o))).

Definition update_bundle (options : option jref) (f : Options -> Options)
    (w : World) : World :=
  match options with
  | Some o => set_optionsObjs (alter f o) w
  | None => w
  end.

(** The decoder after the three setters of lines 195-197, and the calls
    they are. *)
Definition with_flags (l : DecodeLocals) (d : SkImageDecoder) : SkImageDecoder :=
  with_fRequireUnpremultipliedColors (requireUnpremultiplied l)
    (with_fPreferQualityOverSpeed (preferQualityOverSpeed l)
       (with_fDitherImage (doDither l) d)).

Definition flag_calls (d : ptr) (l : DecodeLocals) : list Call :=
  [CallSetDitherImage d (doDither l);
   CallSetPreferQualityOverSpeed d (preferQualityOverSpeed l);
   CallSetRequireUnpremultipliedColors d (requireUnpremultiplied l)].

(** The two backend calls of [SkBitmapRegionDecoder::decodeRegion]. *)
Definition decode_call_pair (d : ptr) (self : SkImageDecoder) (bm : SkBitmap)
    (rect : SkIRect) (l : DecodeLocals) : list Call :=
  [CallSetSampleSize d (sampleSize l);
   CallDecodeSubset d self bm rect (prefColorType l)].

(** [decoder->getFormat()] is only called when there is a bundle. *)
Definition format_call (d : ptr) (options : option jref) : list Call :=
  match options with
  | Some _ => [CallGetFormat d]
  | None => []
  end.

(** The decoder as [buildTileIndex] finds it: fresh from the factory, with
    the allocator installed. *)
Definition prepared (d0 : SkImageDecoder) : SkImageDecoder :=
  with_fAllocator (Some {| fStorageObj := None |}) (with_fStream None d0).

(** A computation preserves a component of the world when every run of it
    that returns leaves the component as it found it. *)
Definition preserves {X A} (proj : World -> X) (m : M A) : Prop :=
  forall w a w', m w = Some (a, w') -> proj w' = proj w.

(** The four ways through [nativeDecodeRegion], each with the result it
    returns and the world it leaves: the cancel flag was set; the backend
    refused; the backend decoded into the reuse bitmap; the backend decoded
    into fresh storage. *)
Inductive decode_path (w : World) (h : ptr) (sx sy wd ht : Z)
    (options : option jref) : option jref -> World -> Prop :=
  | path_cancelled brd dec o opts :
      regionDecoders w !! h = Some brd ->
      decoders w !! fDecoder brd = Some dec ->
      options = Some o ->
      optionsObjs w !! o = Some opts ->
      gOptions_mCancel opts = true ->
      let l := locals_of (Some opts) in
      decode_path w h sx sy wd ht options None
        (set_calls (fun c => c ++ flag_calls (fDecoder brd) l)
           (set_decoders (<[fDecoder brd := with_flags l dec]>)
              (update_bundle options reset_outputs w)))
  | path_failed brd dec bm :
      regionDecoders w !! h = Some brd ->
      decoders w !! fDecoder brd = Some dec ->
      let l := locals_of (bundle w options) in
      let d := fDecoder brd in
      let self := with_fSampleSize (sampleSize l) (with_flags l dec) in
      let rect := region_of sx sy wd ht in
      let r := decodeSubset self bm rect (prefColorType l) in
      cancel_requested (bundle w options) = false ->
      target_bitmap w (tileBitmap l) = Some bm ->
      decoded r = false ->
      decode_path w h sx sy wd ht options None
        (set_calls (fun c => c ++ flag_calls d l ++ decode_call_pair d self bm rect l)
           (set_decoders (<[d := after_decode r self]>)
              (update_bundle options reset_outputs w)))
  | path_reused brd dec o opts tb bm :
      regionDecoders w !! h = Some brd ->
      decoders w !! fDecoder brd = Some dec ->
      options = Some o ->
      optionsObjs w !! o = Some opts ->
      gOptions_mCancel opts = false ->
      gOptions_bitmap opts = Some tb ->
      target_bitmap w (Some tb) = Some bm ->
      let l := locals_of (Some opts) in
      let d := fDecoder brd in
      let self := with_fSampleSize (sampleSize l) (with_flags l dec) in
      let rect := region_of sx sy wd ht in
      let r := decodeSubset self bm rect (prefColorType l) in
      decoded r = true ->
      decode_path w h sx sy wd ht options (Some tb)
        (set_calls (fun c => c ++ flag_calls d l ++ decode_call_pair d self bm rect l
                              ++ [CallGetFormat d;
                                  CallNotifyPixelsChanged (outBitmap r)])
           (set_decoders (<[d := after_decode r self]>)
              (update_bundle options (record_output r self) w)))
  | path_fresh brd dec a :
      regionDecoders w !! h = Some brd ->
      decoders w !! fDecoder brd = Some dec ->
      fAllocator dec = Some a ->
      let l := locals_of (bundle w options) in
      let d := fDecoder brd in
      let self := with_fSampleSize (sampleSize l) (with_flags l dec) in
      let rect := region_of sx sy wd ht in
      let r := decodeSubset self emptyBitmap rect (prefColorType l) in
      let jb := fresh (dom (bitmapObjs w)) in
      cancel_requested (bundle w options) = false ->
      tileBitmap l = None ->
      decoded r = true ->
      decode_path w h sx sy wd ht options (Some jb)
        (set_bitmapObjs
           (<[jb := {| jbNative := outStorage r;
                       jbCreateFlags :=
                         bitmapCreateFlags_of (requireUnpremultiplied l) |}]>)
           (set_calls (fun c => c ++ flag_calls d l
                                 ++ decode_call_pair d self emptyBitmap rect l
                                 ++ format_call d options ++ [CallGetAllocator d])
              (set_decoders
                 (<[d := with_fAllocator (Some {| fStorageObj := None |})
                           (after_decode r self)]>)
                 (update_bundle options (record_output r self) w)))).

(** [bitmapCreateFlags & kBitmapCreateFlag_Premultiplied] read as a bool. *)
Definition isPremultiplied (bitmapCreateFlags : Z) : bool :=
  negb (Z.land bitmapCreateFlags kBitmapCreateFlag_Premultiplied =? 0).

End Model.

(** ** A concrete backend

    A toy decoder for one format, used to run the code on concrete worlds.
    A stream is recognized when it starts with the byte [0xff]; its next two
    bytes are the image width and height, and the index build fails when
    they are missing.  A subset decode succeeds when the rectangle is not
    empty and lies inside the image; the output has the size of the
    rectangle divided by the sample size and lands in the target's pixel
    storage when it has one, in fresh storage otherwise. *)
Module Example.

Inductive color := Unknown | RGB_565 | N32.
Inductive format := JPEG.

#[export] Instance types : SkiaTypes :=
  {| SkColorType := color;
     kUnknown_SkColorType := Unknown;
     Format := format;
     Config := color;
     DecoderImpl := option (Z * Z) |}.

Definition newDecoder : SkImageDecoder :=
  {| fSampleSize := 1; fDitherImage := true;
     fPreferQualityOverSpeed := false;
     fRequireUnpremultipliedColors := false;
     fAllocator := None; fStream := None; fImpl := None |}.

Definition sniff (s : Stream) : option SkImageDecoder :=
  match s with
  | Byte.xff :: _ => Some newDecoder
  | _ => None
  end.

Definition index (d : SkImageDecoder) (s : Stream) : option (option (Z * Z) * Z * Z) :=
  match s with
  | _ :: bw :: bh :: _ =>
      let w := Z.of_N (Byte.to_N bw) in
      let h := Z.of_N (Byte.to_N bh) in
      Some (Some (w, h), w, h)
  | _ => None
  end.

Definition inside (rect : SkIRect) (dims : Z * Z) : bool :=
  (0 <=? fLeft rect) && (0 <=? fTop rect)
  && (fLeft rect <? fRight rect) && (fTop rect <? fBottom rect)
  && (fRight rect <=? fst dims) && (fBottom rect <=? snd dims).

Definition decode (d : SkImageDecoder) (bm : SkBitmap) (rect : SkIRect)
    (pref : color) : DecodeOutcome :=
  match fImpl d with
  | Some dims =>
      if inside rect dims then
        let out :=
          {| bmWidth := (fRight rect - fLeft rect) / Z.max 1 (fSampleSize d);
             bmHeight := (fBottom rect - fTop rect) / Z.max 1 (fSampleSize d);
             fPixelRef := match fPixelRef bm with
                          | Some p => Some p
                          | None => Some 1%positive
                          end |} in
        {| decoded := true; outBitmap := out;
           outStorage := match fPixelRef bm with
                         | Some _ => None
                         | None => Some out
                         end;
           outImpl := Some dims |}
      else
        {| decoded := false; outBitmap := bm; outStorage := None;
           outImpl := Some dims |}
  | None =>
      {| decoded := false; outBitmap := bm; outStorage := None; outImpl := None |}
  end.

#[export] Instance backend : Collaborators :=
  {| Factory := sniff;
     buildTileIndex := index;
     decodeSubset := decode;
     getFormat := fun _ => JPEG;
     getFormatName := fun _ => "JPEG"%string;
     getNativeBitmapColorType := fun c => default Unknown c;
     getMimeTypeString := fun _ => Some "image/jpeg"%string;
     kBitmapCreateFlag_Premultiplied := 2 |}.

Definition emptyWorld : World :=
  {| streams := ∅; decoders := ∅; regionDecoders := ∅; optionsObjs := ∅;
     bitmapObjs := ∅; gAutoDecoderCancel := []; pendingException := None;
     calls := [] |}.

(** A 100 x 100 image, a truncated stream and an unrecognized stream. *)
Definition goodStream : Stream := [Byte.xff; Byte.x64; Byte.x64].
Definition truncatedStream : Stream := [Byte.xff].
Definition unknownStream : Stream := [Byte.x00; Byte.x64; Byte.x64].

(** An options bundle as [new BitmapFactory.Options()] leaves it. *)
Definition freshOptions : Options :=
  {| gOptions_sampleSize := 0; gOptions_width := 0; gOptions_height := 0;
     gOptions_mime := None; gOptions_config := Some N32;
     gOptions_dither := false; gOptions_preferQualityOverSpeed := false;
     gOptions_bitmap := None; gOptions_premultiplied := true;
     gOptions_mCancel := false |}.

Definition with_mCancel (b : bool) (o : Options) : Options :=
  {| gOptions_sampleSize := gOptions_sampleSize o; gOptions_width := gOptions_width o;
     gOptions_height := gOptions_height o; gOptions_mime := gOptions_mime o;
     gOptions_config := gOptions_config o; gOptions_dither := gOptions_dither o;
     gOptions_preferQualityOverSpeed := gOptions_preferQualityOverSpeed o;
     gOptions_bitmap := gOptions_bitmap o;
     gOptions_premultiplied := gOptions_premultiplied o;
     gOptions_mCancel := b |}.

Definition with_bitmap (b : option jref) (o : Options) : Options :=
  {| gOptions_sampleSize := gOptions_sampleSize o; gOptions_width := gOptions_width o;
     gOptions_height := gOptions_height o; gOptions_mime := gOptions_mime o;
     gOptions_config := gOptions_config o; gOptions_dither := gOptions_dither o;
     gOptions_preferQualityOverSpeed := gOptions_preferQualityOverSpeed o;
     gOptions_bitmap := b;
     gOptions_premultiplied := gOptions_premultiplied o;
     gOptions_mCancel := gOptions_mCancel o |}.

(** The world after the image has been opened: handle 1 on decoder 1, which
    owns stream 1.  Java side: options 1 is a fresh bundle, options 2 has its
    cancel flag set, options 3 asks to reuse bitmap 1. *)
Definition openedWorld : World :=
  {| streams := {[ 1%positive := goodStream ]};
     decoders := {[ 1%positive :=
       with_fImpl (Some (100, 100))
         (with_fStream (Some 1%positive)
            (with_fAllocator (Some {| fStorageObj := None |}) newDecoder)) ]};
     regionDecoders := {[ 1%positive :=
       {| fDecoder := 1%positive; fWidth := 100; fHeight := 100 |} ]};
     optionsObjs :=
       {[ 1%positive := freshOptions;
          2%positive := with_mCancel true freshOptions;
          3%positive := with_bitmap (Some 1%positive) freshOptions ]};
     bitmapObjs := {[ 1%positive :=
       {| jbNative := Some {| bmWidth := 64; bmHeight := 64;
                              fPixelRef := Some 7%positive |};
          jbCreateFlags := 3 |} ]};
     gAutoDecoderCancel := [];
     pendingException := None;
     calls := [] |}.

(** Three streams waiting to be opened: the image, a truncated copy and
    something unrecognized. *)
Definition streamWorld : World :=
  set_streams (fun _ => {[ 1%positive := goodStream;
                           2%positive := truncatedStream;
                           3%positive := unknownStream ]}) emptyWorld.

(** The world a computation leaves. *)
Definition world_after {A} (m : M A) (w : World) : World :=
  match m w with
  | Some (_, w') => w'
  | None => w
  end.

(** [streamWorld] after stream 1 has been opened, and then after one region
    has been decoded. *)
Definition createdWorld : World :=
  world_after (createBitmapRegionDecoder 1%positive) streamWorld.

Definition decodedWorld : World :=
  world_after (nativeDecodeRegion 1%positive 0 0 50 50 None) createdWorld.

(** [openedWorld] after a decode with the cancelled bundle, after a decode
    of a region that sticks out of the image, after a decode into the reuse
    bitmap and after a decode into fresh storage. *)
Definition cancelledWorld : World :=
  world_after (nativeDecodeRegion 1%positive 0 0 50 50 (Some 2%positive)) openedWorld.

Definition failedWorld : World :=
  world_after (nativeDecodeRegion 1%positive (-5) 90 200 20 None) openedWorld.

Definition reusedWorld : World :=
  world_after (nativeDecodeRegion 1%positive 0 0 100 100 (Some 3%positive)) openedWorld.

Definition freshWorld : World :=
  world_after (nativeDecodeRegion 1%positive 0 0 50 50 (Some 1%positive)) openedWorld.

(** The decoder of [openedWorld], and as a call without options configures
    it. *)
Definition openedDecoder : SkImageDecoder :=
  with_fImpl (Some (100, 100))
    (with_fStream (Some 1%positive)
       (with_fAllocator (Some {| fStorageObj := None |}) newDecoder)).

Definition defaultDecoder : SkImageDecoder :=
  with_fSampleSize 1 (with_flags defaultLocals openedDecoder).

End Example.

(** * The entry points that open an image (lines 98-159)

    Each of the four [nativeNewInstance] overloads turns its source into a
    new in-memory stream and hands it to [createBitmapRegionDecoder]. *)

(** ** The platform outside this file

    - [CopyJavaInputStream] (CreateJavaOutputStreamAdaptor.cpp) and
      [CopyAssetToStream] (Utils.cpp) copy their source into a stream, or
      return null.
    - [fstat] is the system call, with its result 0 or -1.
    - [NewFromFD]: the bytes of the [SkMemoryStream] made from
      [SkData::NewFromFD(descriptor)].
    - [NullPointerException]: how the exception that [doThrowNPE] leaves
      pending shows to the caller. *)
Class Platform := {
  InputStream : Type;
  Storage : Type;
  Asset : Type;
  CopyJavaInputStream : InputStream -> Storage -> option Stream;
  CopyAssetToStream : Asset -> option Stream;
  fstat : Z -> Z;
  NewFromFD : Z -> Stream;
  NullPointerException : string;
}.

Section EntryPoints.
Context `{Collaborators} `{!Platform}.

(** [new SkMemoryStream(...)], and the stream object a copy helper returns:
    a new stream object holding these bytes. *)
Definition new_SkMemoryStream (data : Stream) : M ptr :=
  p ← gets (fun w => fresh (dom (streams w)));
  modify (set_streams (<[p := data]>));;
  mret p.

(** [NPE_CHECK_RETURN_ZERO(env, object)] (GraphicsJNI.h) throws through
    [doThrowNPE] and returns 0 when the object is null. *)
Definition doThrowNPE : M unit :=
  modify (set_pendingException (Some NullPointerException)).

Definition msg_broken_descriptor : string := "broken file descriptor".

(** Lines 98-110.  [AutoJavaByteArray] pins the elements of the array; the
    stream copies [length] bytes from [ar.ptr() + offset], which is only
    defined inside the array.  [isShareable] is not looked at. *)
Definition nativeNewInstanceFromByteArray (byteArray : list Byte.byte)
    (offset length : Z) (isShareable : bool) : M (option ptr) :=
  if (0 <=? offset) && (0 <=? length)
     && (offset + length <=? Z.of_nat (List.length byteArray))
  then
    stream ← new_SkMemoryStream
               (take (Z.to_nat length) (drop (Z.to_nat offset) byteArray));
    (* the decoder owns the stream. *)
    createBitmapRegionDecoder stream
  else undefined.

(** Lines 112-130.  A Java [FileDescriptor] is the descriptor it holds. *)
Definition nativeNewInstanceFromFileDescriptor (fileDescriptor : option Z)
    (isShareable : bool) : M (option ptr) :=
  match fileDescriptor with
  | None => doThrowNPE;; mret None
  | Some descriptor =>
      if fstat descriptor =? -1 then
        doThrowIOE msg_broken_descriptor;;
        nullObjectReturn "fstat return -1"
      else
        stream ← new_SkMemoryStream (NewFromFD descriptor);
        (* the decoder owns the stream. *)
        createBitmapRegionDecoder stream
  end.

(** Lines 132-145. *)
Definition nativeNewInstanceFromStream (input : InputStream) (storage : Storage)
    (isShareable : bool) : M (option ptr) :=
  (* for now we don't allow shareable with java inputstreams *)
  match CopyJavaInputStream input storage with
  | Some data =>
      stream ← new_SkMemoryStream data;
      (* the decoder owns the stream. *)
      createBitmapRegionDecoder stream
  | None => mret None
  end.

(** Lines 147-159. *)
Definition nativeNewInstanceFromAsset (native_asset : Asset)
    (isShareable : bool) : M (option ptr) :=
  match CopyAssetToStream native_asset with
  | None => mret None
  | Some data =>
      stream ← new_SkMemoryStream data;
      (* the decoder owns the stream. *)
      createBitmapRegionDecoder stream
  end.

(** ** A caller that decodes one region after the other *)

Record Request := {
  rq_handle : ptr;
  rq_x : Z;
  rq_y : Z;
  rq_width : Z;
  rq_height : Z;
  rq_options : option jref;
}.

Fixpoint decode_all (rs : list Request) : M (list (option jref)) :=
  match rs with
  | [] => mret []
  | rq :: rs' =>
      b ← nativeDecodeRegion (rq_handle rq) (rq_x rq) (rq_y rq)
            (rq_width rq) (rq_height rq) (rq_options rq);
      bs ← decode_all rs';
      mret (b :: bs)
  end.

(** What a call opening an image may do to the native heap: on null
    nothing stays allocated; with a handle there is one more stream, which
    holds [data] and belongs to the handle's decoder. *)
Definition opened_or_released (data : Stream) (w : World) (r : option ptr)
    (w' : World) : Prop :=
  match r with
  | None =>
      streams w' = streams w
      /\ decoders w' = decoders w
      /\ regionDecoders w' = regionDecoders w
  | Some h =>
      exists p brd dec,
        streams w !! p = None
        /\ streams w' = <[p := data]> (streams w)
        /\ regionDecoders w !! h = None
        /\ regionDecoders w' = <[h := brd]> (regionDecoders w)
        /\ decoders w !! fDecoder brd = None
        /\ decoders w' = <[fDecoder brd := dec]> (decoders w)
        /\ fStream dec = Some p
        /\ live_handle w' h = true
  end.

(** What handing a new stream to [createBitmapRegionDecoder] comes to: the
    factory and the index build decide on the stream's bytes; a failure
    leaves its message pending and nothing allocated; a success leaves the
    stream with the new handle's decoder. *)
Definition open_outcome (data : Stream) (w : World) (r : option ptr)
    (w' : World) : Prop :=
  opened_or_released data w r w'
  /\ match Factory data with
     | None => r = None /\ pendingException w' = Some msg_unsupported
     | Some d0 =>
         match buildTileIndex (prepared d0) data with
         | None =>
             r = None
             /\ pendingException w' =
                  Some (msg_index_failed (getFormatName (prepared d0)))
         | Some (impl, width, height) =>
             exists h,
               r = Some h
               /\ nativeGetWidth h w' = Some (width, w')
               /\ nativeGetHeight h w' = Some (height, w')
               /\ pendingException w' = pendingException w
         end
     end.

(** The stream a decoder owns, if the decoder is allocated. *)
Definition owned_stream (d : ptr) (w : World) : option (option ptr) :=
  fStream <$> decoders w !! d.

End EntryPoints.

(** A platform for the concrete backend: a Java stream or an asset is the
    bytes it yields, and the copy fails on an empty one; descriptors below 0
    are broken; descriptor 3 is the image file. *)
Module ExamplePlatform.

#[export] Instance platform : Platform :=
  {| InputStream := list Byte.byte;
     Storage := unit;
     Asset := list Byte.byte;
     CopyJavaInputStream := fun input _ => if input is [] then None else Some input;
     CopyAssetToStream := fun a => if a is [] then None else Some a;
     fstat := fun fd => if fd <? 0 then -1 else 0;
     NewFromFD := fun fd => if fd =? 3 then Example.goodStream else [];
     NullPointerException := "java.lang.NullPointerException" |}.

(** A byte array with the image at offset 2. *)
Definition paddedArray : list Byte.byte :=
  [Byte.x00; Byte.x00; Byte.xff; Byte.x64; Byte.x64; Byte.x00].

(** Two requests on handle 1 of [Example.openedWorld]: with the fresh
    bundle, then into the reuse bitmap. *)
Definition twoRequests : list Request :=
  [ {| rq_handle := 1%positive; rq_x := 0; rq_y := 0;
       rq_width := 50; rq_height := 50; rq_options := Some 1%positive |};
    {| rq_handle := 1%positive; rq_x := 0; rq_y := 0;
       rq_width := 100; rq_height := 100; rq_options := Some 3%positive |} ].

Import Example.

(** Two copies of the image waiting to be opened, and the worlds after the
    first and after both have been opened. *)
Definition twoStreamWorld : World :=
  set_streams (fun _ => {[ 1%positive := Example.goodStream;
                           2%positive := Example.goodStream ]}) Example.emptyWorld.

Definition firstOpened : World :=
  Example.world_after (createBitmapRegionDecoder 1%positive) twoStreamWorld.

Definition bothOpened : World :=
  Example.world_after (createBitmapRegionDecoder 2%positive) firstOpened.

(** The decoder of [Example.openedWorld] as a call with bundle 3 configures
    it, and the native bitmap behind Java bitmap 1. *)
Definition reuseDecoder : SkImageDecoder :=
  with_fSampleSize 0
    (with_flags (locals_of (Some (Example.with_bitmap (Some 1%positive)
                                    Example.freshOptions)))
       Example.openedDecoder).

Definition reuseTarget : SkBitmap :=
  {| bmWidth := 64; bmHeight := 64; fPixelRef := Some 7%positive |}.

End ExamplePlatform.

(** * Proofs *)

Section Proofs.
Context `{Collaborators}.

(** ** Running the monad, one call at a time *)

Lemma bind_Some {A B} (m : M A) (k : A -> M B) w a w' :
  m w = Some (a, w') -> (m ≫= k) w = k a w'.
Proof. intros E. unfold mbind, M_bind, bind. by rewrite E. Qed.

Lemma bind_assoc_run {A B C} (m : M A) (f : A -> M B) (g : B -> M C) w :
  ((m ≫= f) ≫= g) w = (m ≫= (fun a => f a ≫= g)) w.
Proof. unfold mbind, M_bind, bind. by destruct (m w) as [[a w']|]. Qed.

Lemma ret_run {A} (a : A) w : (mret a : M A) w = Some (a, w).
Proof. reflexivity. Qed.

Lemma insert_as_alter {A} (f : A -> A) (m : gmap positive A) i x :
  m !! i = Some x -> <[i := f x]> m = alter f i m.
Proof.
  intros Hx. apply map_eq. intros j.
  destruct (decide (i = j)) as [->|Hne].
  - by rewrite lookup_insert_eq, lookup_alter_eq, Hx.
  - by rewrite lookup_insert_ne, lookup_alter_ne.
Qed.

Lemma insert_alter_eq {A} (f g : A -> A) (m : gmap positive A) i x :
  m !! i = Some x -> <[i := f x]> (alter g i m) = alter f i m.
Proof.
  intros Hx. apply map_eq. intros j.
  destruct (decide (i = j)) as [->|Hne].
  - by rewrite lookup_insert_eq, lookup_alter_eq, Hx.
  - by rewrite lookup_insert_ne, !lookup_alter_ne.
Qed.

Lemma unregister_head r l : unregister r (r :: l) = l.
Proof. cbn. by rewrite decide_True. Qed.

#[local] Opaque unregister.

Ltac lookup_solve :=
  cbn;
  rewrite ?lookup_insert_eq, ?lookup_alter_eq;
  repeat match goal with
         | E : ?m !! ?k = Some _ |- context [?m !! ?k] => rewrite E
         end;
  cbn; first [eassumption | reflexivity].

(** [mstep lem] runs the first call of the sequence with its lemma. *)
Ltac mstep_by lem tac :=
  rewrite ?bind_assoc_run;
  erewrite bind_Some; [ | eapply lem; tac ];
  cbv beta iota.

Ltac mstep lem := mstep_by lem lookup_solve.

(** The sequence has come to its [mret]. *)
Ltac finish := cbv [mret M_ret ret].

(** Two worlds are equal when their components are. *)
Lemma World_eq (w1 w2 : World) :
  streams w1 = streams w2 ->
  decoders w1 = decoders w2 ->
  regionDecoders w1 = regionDecoders w2 ->
  optionsObjs w1 = optionsObjs w2 ->
  bitmapObjs w1 = bitmapObjs w2 ->
  gAutoDecoderCancel w1 = gAutoDecoderCancel w2 ->
  pendingException w1 = pendingException w2 ->
  calls w1 = calls w2 ->
  w1 = w2.
Proof. destruct w1, w2; cbn; intros; by subst. Qed.

Lemma result_eq {A} (a1 a2 : A) (w1 w2 : World) :
  a1 = a2 -> w1 = w2 -> Some (a1, w1) = Some (a2, w2).
Proof. by intros -> ->. Qed.

Ltac world_eq :=
  apply result_eq; [ cbn -[fresh unregister]; try reflexivity | ];
  try (apply World_eq;
       cbn -[fresh unregister];
       rewrite ?insert_insert_eq, ?unregister_head, <- ?app_assoc;
       try reflexivity).

Lemma deref_run {A} (heap : World -> gmap positive A) p w a :
  heap w !! p = Some a -> deref heap p w = Some (a, w).
Proof. intros E. unfold deref. by rewrite E. Qed.

Lemma modify_run f w : modify f w = Some (tt, f w).
Proof. reflexivity. Qed.

Lemma gets_run {A} (f : World -> A) w : gets f w = Some (f w, w).
Proof. reflexivity. Qed.

Lemma getDecoder_run w h brd :
  regionDecoders w !! h = Some brd ->
  getDecoder h w = Some (fDecoder brd, w).
Proof. intros E. unfold getDecoder. by mstep @deref_run. Qed.

Lemma GetField_run {A} (field : Options -> A) o w opts :
  optionsObjs w !! o = Some opts ->
  GetField field o w = Some (field opts, w).
Proof. intros E. unfold GetField. by mstep @deref_run. Qed.

Lemma SetField_run f o w opts :
  optionsObjs w !! o = Some opts ->
  SetField f o w = Some (tt, set_optionsObjs (<[o := f opts]>) w).
Proof. intros E. unfold SetField. by mstep @deref_run. Qed.

Lemma readOptions_run w o opts :
  optionsObjs w !! o = Some opts ->
  readOptions (Some o) w =
    Some (locals_of (Some opts), update_bundle (Some o) reset_outputs w).
Proof.
  intros E. unfold readOptions.
  mstep @GetField_run. mstep @SetField_run. mstep @SetField_run. mstep @SetField_run.
  mstep @GetField_run. mstep @GetField_run. mstep @GetField_run.
  mstep @GetField_run. mstep @GetField_run.
  finish. world_eq. exact (insert_as_alter reset_outputs _ _ _ E).
Qed.

Lemma setDitherImage_run w d dec b :
  decoders w !! d = Some dec ->
  setDitherImage d b w =
    Some (tt, set_decoders (<[d := with_fDitherImage b dec]>)
                (set_calls (fun c => c ++ [CallSetDitherImage d b]) w)).
Proof. intros E. unfold setDitherImage, log. by mstep @deref_run. Qed.

Lemma setPreferQualityOverSpeed_run w d dec b :
  decoders w !! d = Some dec ->
  setPreferQualityOverSpeed d b w =
    Some (tt, set_decoders (<[d := with_fPreferQualityOverSpeed b dec]>)
                (set_calls (fun c => c ++ [CallSetPreferQualityOverSpeed d b]) w)).
Proof. intros E. unfold setPreferQualityOverSpeed, log. by mstep @deref_run. Qed.

Lemma setRequireUnpremultipliedColors_run w d dec b :
  decoders w !! d = Some dec ->
  setRequireUnpremultipliedColors d b w =
    Some (tt, set_decoders (<[d := with_fRequireUnpremultipliedColors b dec]>)
                (set_calls
                   (fun c => c ++ [CallSetRequireUnpremultipliedColors d b]) w)).
Proof. intros E. unfold setRequireUnpremultipliedColors, log. by mstep @deref_run. Qed.

Lemma decodeRegion_run w h brd dec bm rect pref n :
  regionDecoders w !! h = Some brd ->
  decoders w !! fDecoder brd = Some dec ->
  let self := with_fSampleSize n dec in
  let r := decodeSubset self bm rect pref in
  decodeRegion h bm rect pref n w =
    Some ((decoded r, outBitmap r),
          set_calls (fun c => c ++ [CallSetSampleSize (fDecoder brd) n;
                                    CallDecodeSubset (fDecoder brd) self bm rect pref])
            (set_decoders (<[fDecoder brd := after_decode r self]>) w)).
Proof.
  intros Hb Hd self r.
  unfold decodeRegion, setSampleSize, SkImageDecoder_decodeSubset, log.
  mstep @deref_run. mstep @deref_run. mstep modify_run. mstep modify_run.
  mstep @deref_run. mstep modify_run. mstep modify_run.
  finish. world_eq.
Qed.

Lemma getSkBitmap_run w tb bm :
  target_bitmap w (Some tb) = Some bm ->
  getSkBitmap tb w = Some (bm, w).
Proof.
  unfold target_bitmap, getSkBitmap. intros E.
  destruct (bitmapObjs w !! tb) as [jb|] eqn:Hjb; [|done]. cbn in E.
  mstep @deref_run. by rewrite E.
Qed.

Lemma SkImageDecoder_getFormat_run w d dec :
  decoders w !! d = Some dec ->
  SkImageDecoder_getFormat d w =
    Some (getFormat dec, set_calls (fun c => c ++ [CallGetFormat d]) w).
Proof. intros E. unfold SkImageDecoder_getFormat, log. by mstep @deref_run. Qed.

Lemma getStorageObjAndReset_run w d dec a :
  decoders w !! d = Some dec ->
  fAllocator dec = Some a ->
  getStorageObjAndReset d w =
    Some (fStorageObj a,
          set_decoders (<[d := with_fAllocator (Some {| fStorageObj := None |}) dec]>)
            (set_calls (fun c => c ++ [CallGetAllocator d]) w)).
Proof.
  intros E Ha. unfold getStorageObjAndReset, log.
  mstep @deref_run. mstep modify_run.
  by rewrite Ha.
Qed.

Lemma valid_options_inv w options :
  valid_options w options = true ->
  match options with
  | Some o => exists opts, optionsObjs w !! o = Some opts
                /\ is_Some (target_bitmap w (gOptions_bitmap opts))
  | None => True
  end.
Proof.
  destruct options as [o|]; [|done]. cbn.
  destruct (optionsObjs w !! o) as [opts|]; [|done].
  intros Hv. exists opts. split; [done|].
  destruct (gOptions_bitmap opts) as [tb|]; cbn in *; [|by eexists].
  destruct (bitmapObjs w !! tb) as [jb|]; cbn; [|done].
  by apply bool_decide_eq_true in Hv.
Qed.

Lemma live_handle_inv w h :
  live_handle w h = true ->
  exists brd dec a,
    regionDecoders w !! h = Some brd
    /\ decoders w !! fDecoder brd = Some dec
    /\ fAllocator dec = Some a.
Proof.
  unfold live_handle. intros Hl.
  destruct (regionDecoders w !! h) as [brd|] eqn:Hb; [|done].
  destruct (decoders w !! fDecoder brd) as [dec|] eqn:Hd; [|done].
  apply bool_decide_eq_true in Hl as [a Ha]. by exists brd, dec, a.
Qed.

Lemma target_bitmap_run w tb bm :
  target_bitmap w tb = Some bm ->
  match tb with
  | Some r => getSkBitmap r
  | None => mret emptyBitmap
  end w = Some (bm, w).
Proof.
  destruct tb as [r|]; [apply getSkBitmap_run|].
  cbn. by intros [= <-].
Qed.

Lemma target_bitmap_ext w w' tb :
  bitmapObjs w' = bitmapObjs w -> target_bitmap w' tb = target_bitmap w tb.
Proof. intros E. unfold target_bitmap. by rewrite E. Qed.

(** ** The four ways through [nativeDecodeRegion]

    Each lemma runs the whole function on one path and gives the result and
    the world it leaves. *)

(** The entry block, the three setters and the guard's constructor. *)
Ltac run_entry :=
  unfold nativeDecodeRegion;
  mstep getDecoder_run;
  first [ mstep readOptions_run | mstep @ret_run ];
  mstep setDitherImage_run;
  mstep setPreferQualityOverSpeed_run;
  mstep setRequireUnpremultipliedColors_run;
  unfold with_AutoDecoderCancel, AutoDecoderCancel_ctor, AutoDecoderCancel_dtor;
  first [ mstep modify_run | mstep @ret_run ].

Ltac read_cancel :=
  cbn [gOptions_mCancel reset_outputs with_mime with_height with_width].

Lemma nativeDecodeRegion_cancelled w h sx sy wd ht o opts brd dec :
  regionDecoders w !! h = Some brd ->
  decoders w !! fDecoder brd = Some dec ->
  optionsObjs w !! o = Some opts ->
  gOptions_mCancel opts = true ->
  let l := locals_of (Some opts) in
  nativeDecodeRegion h sx sy wd ht (Some o) w =
    Some (None,
          set_calls (fun c => c ++ flag_calls (fDecoder brd) l)
            (set_decoders (<[fDecoder brd := with_flags l dec]>)
               (update_bundle (Some o) reset_outputs w))).
Proof.
  intros Hb Hd Ho Hc l.
  run_entry.
  mstep @GetField_run. read_cancel. rewrite Hc. cbv beta iota. unfold nullObjectReturn.
  mstep @ret_run. mstep modify_run.
  finish. world_eq.
Qed.

(** The cancel check when it lets the call through. *)
Ltac pass_cancel Hc :=
  first [ mstep @GetField_run; read_cancel; cbn in Hc; rewrite Hc
        | mstep @ret_run ];
  cbv beta iota.

(** Projections of the locals, computed everywhere. *)
Ltac norm_locals :=
  unfold with_flags in *;
  cbn [locals_of defaultLocals sampleSize prefColorType doDither
       preferQualityOverSpeed requireUnpremultiplied tileBitmap] in *.

Ltac pick_target Ht :=
  mstep_by target_bitmap_run
    ltac:(cbn [tileBitmap locals_of];
          erewrite target_bitmap_ext by reflexivity; exact Ht).

Lemma nativeDecodeRegion_failed w h sx sy wd ht options brd dec bm :
  regionDecoders w !! h = Some brd ->
  decoders w !! fDecoder brd = Some dec ->
  valid_options w options = true ->
  let l := locals_of (bundle w options) in
  let d := fDecoder brd in
  let self := with_fSampleSize (sampleSize l) (with_flags l dec) in
  let rect := region_of sx sy wd ht in
  let r := decodeSubset self bm rect (prefColorType l) in
  cancel_requested (bundle w options) = false ->
  target_bitmap w (tileBitmap l) = Some bm ->
  decoded r = false ->
  nativeDecodeRegion h sx sy wd ht options w =
    Some (None,
          set_calls (fun c => c ++ flag_calls d l ++ decode_call_pair d self bm rect l)
            (set_decoders (<[d := after_decode r self]>)
               (update_bundle options reset_outputs w))).
Proof.
  intros Hb Hd Hv l d self rect r Hc Ht Hr.
  apply valid_options_inv in Hv.
  destruct options as [o|]; [destruct Hv as (opts & Ho & _)|];
    subst l d self rect r; cbn [bundle mbind option_bind] in *; rewrite ?Ho in *.
  - run_entry. pass_cancel Hc. pick_target Ht.
    mstep decodeRegion_run.
    norm_locals. rewrite Hr. cbv beta iota. cbn [negb].
    unfold nullObjectReturn. mstep @ret_run. mstep modify_run.
    finish. world_eq.
  - run_entry. pass_cancel Hc. pick_target Ht.
    mstep decodeRegion_run.
    norm_locals. rewrite Hr. cbv beta iota. cbn [negb].
    unfold nullObjectReturn. mstep @ret_run. mstep @ret_run.
    finish. world_eq.
Qed.

(** The write-back of lines 224-232. *)
Ltac write_back :=
  mstep SetField_run; mstep SetField_run;
  mstep SkImageDecoder_getFormat_run; mstep SetField_run.

Lemma nativeDecodeRegion_reused w h sx sy wd ht o opts tb brd dec bm :
  regionDecoders w !! h = Some brd ->
  decoders w !! fDecoder brd = Some dec ->
  optionsObjs w !! o = Some opts ->
  gOptions_mCancel opts = false ->
  gOptions_bitmap opts = Some tb ->
  target_bitmap w (Some tb) = Some bm ->
  let l := locals_of (Some opts) in
  let d := fDecoder brd in
  let self := with_fSampleSize (sampleSize l) (with_flags l dec) in
  let rect := region_of sx sy wd ht in
  let r := decodeSubset self bm rect (prefColorType l) in
  decoded r = true ->
  nativeDecodeRegion h sx sy wd ht (Some o) w =
    Some (Some tb,
          set_calls (fun c => c ++ flag_calls d l ++ decode_call_pair d self bm rect l
                                ++ [CallGetFormat d;
                                    CallNotifyPixelsChanged (outBitmap r)])
            (set_decoders (<[d := after_decode r self]>)
               (update_bundle (Some o) (record_output r self) w))).
Proof.
  intros Hb Hd Ho Hc Htb Ht l d self rect r Hr.
  subst l d self rect r. norm_locals.
  run_entry. pass_cancel Hc.
  norm_locals. rewrite Htb in *.
  mstep_by getSkBitmap_run ltac:(exact Ht).
  mstep decodeRegion_run.
  norm_locals. rewrite Hr. cbv beta iota. cbn [negb].
  write_back.
  unfold notifyPixelsChanged, log. mstep modify_run. mstep @ret_run.
  mstep modify_run. finish. world_eq.
  exact (insert_alter_eq (record_output _ _) reset_outputs _ _ _ Ho).
Qed.

Lemma nativeDecodeRegion_fresh w h sx sy wd ht options brd dec a :
  regionDecoders w !! h = Some brd ->
  decoders w !! fDecoder brd = Some dec ->
  fAllocator dec = Some a ->
  valid_options w options = true ->
  let l := locals_of (bundle w options) in
  let d := fDecoder brd in
  let self := with_fSampleSize (sampleSize l) (with_flags l dec) in
  let rect := region_of sx sy wd ht in
  let r := decodeSubset self emptyBitmap rect (prefColorType l) in
  let jb := fresh (dom (bitmapObjs w)) in
  cancel_requested (bundle w options) = false ->
  tileBitmap l = None ->
  decoded r = true ->
  nativeDecodeRegion h sx sy wd ht options w =
    Some (Some jb,
          set_bitmapObjs
            (<[jb := {| jbNative := outStorage r;
                        jbCreateFlags :=
                          bitmapCreateFlags_of (requireUnpremultiplied l) |}]>)
            (set_calls (fun c => c ++ flag_calls d l
                                  ++ decode_call_pair d self emptyBitmap rect l
                                  ++ format_call d options ++ [CallGetAllocator d])
               (set_decoders
                  (<[d := with_fAllocator (Some {| fStorageObj := None |})
                            (after_decode r self)]>)
                  (update_bundle options (record_output r self) w)))).
Proof.
  intros Hb Hd Ha Hv l d self rect r jb Hc Htb Hr.
  apply valid_options_inv in Hv.
  destruct options as [o|]; [destruct Hv as (opts & Ho & _)|];
    subst l d self rect r jb; cbn [bundle mbind option_bind] in *;
    rewrite ?Ho in *; norm_locals.
  - run_entry. pass_cancel Hc.
    norm_locals. rewrite Htb. mstep @ret_run.
    mstep decodeRegion_run.
    norm_locals. rewrite Hr. cbv beta iota. cbn [negb].
    write_back.
    mstep_by getStorageObjAndReset_run
      ltac:(first [lookup_solve | cbn; rewrite Ha; reflexivity]).
    unfold createBitmap. mstep @gets_run. mstep modify_run. mstep @ret_run.
    mstep modify_run. finish. world_eq.
    exact (insert_alter_eq (record_output _ _) reset_outputs _ _ _ Ho).
  - run_entry. pass_cancel Hc.
    mstep @ret_run.
    mstep decodeRegion_run.
    norm_locals. rewrite Hr. cbv beta iota. cbn [negb].
    mstep @ret_run.
    mstep_by getStorageObjAndReset_run
      ltac:(first [lookup_solve | cbn; rewrite Ha; reflexivity]).
    unfold createBitmap. mstep @gets_run. mstep modify_run. mstep @ret_run.
    mstep @ret_run. finish. world_eq.
Qed.

(** A well-formed call returns, along one of the four paths. *)
Lemma nativeDecodeRegion_path w h sx sy wd ht options :
  live_handle w h = true ->
  valid_options w options = true ->
  exists r w',
    nativeDecodeRegion h sx sy wd ht options w = Some (r, w')
    /\ decode_path w h sx sy wd ht options r w'.
Proof.
  intros Hl Hv.
  destruct (live_handle_inv _ _ Hl) as (brd & dec & a & Hb & Hd & Ha).
  pose proof (valid_options_inv _ _ Hv) as Hi.
  destruct (cancel_requested (bundle w options)) eqn:Hc.
  { destruct options as [o|]; [|done]. destruct Hi as (opts & Ho & _).
    cbn in Hc. rewrite Ho in Hc. cbn in Hc.
    eexists _, _. split.
    - by eapply nativeDecodeRegion_cancelled.
    - by eapply path_cancelled. }
  assert (exists bm, target_bitmap w (tileBitmap (locals_of (bundle w options)))
                     = Some bm) as [bm Ht].
  { destruct options as [o|]; [|by eexists].
    destruct Hi as (opts & Ho & [bm Ht]). cbn. rewrite Ho. by exists bm. }
  destruct (decoded (decodeSubset
              (with_fSampleSize (sampleSize (locals_of (bundle w options)))
                 (with_flags (locals_of (bundle w options)) dec))
              bm (region_of sx sy wd ht)
              (prefColorType (locals_of (bundle w options))))) eqn:Hr.
  2:{ eexists _, _. split.
      - by eapply nativeDecodeRegion_failed.
      - by eapply path_failed. }
  destruct (tileBitmap (locals_of (bundle w options))) as [tb|] eqn:Htb.
  - destruct options as [o|]; [|done]. destruct Hi as (opts & Ho & _).
    cbn in Hc, Htb, Hr. rewrite Ho in Hc, Htb, Hr. cbn in Hc, Htb, Hr.
    eexists _, _. split.
    + by eapply nativeDecodeRegion_reused.
    + by eapply path_reused.
  - cbn in Ht. injection Ht as <-.
    eexists _, _. split.
    + by eapply nativeDecodeRegion_fresh.
    + by eapply path_fresh.
Qed.

Lemma nativeDecodeRegion_inv w h sx sy wd ht options r w' :
  live_handle w h = true ->
  valid_options w options = true ->
  nativeDecodeRegion h sx sy wd ht options w = Some (r, w') ->
  decode_path w h sx sy wd ht options r w'.
Proof.
  intros Hl Hv Hrun.
  destruct (nativeDecodeRegion_path w h sx sy wd ht options Hl Hv)
    as (r0 & w0 & Hrun0 & Hp).
  rewrite Hrun0 in Hrun. by injection Hrun as <- <-.
Qed.

(** ** Construction *)

Lemma fresh_lookup {A} (m : gmap positive A) : m !! fresh (dom m) = None.
Proof. apply not_elem_of_dom, is_fresh. Qed.

Lemma msg_index_failed_distinct name : msg_index_failed name <> msg_unsupported.
Proof. unfold msg_index_failed, msg_unsupported, snprintf100. cbn. discriminate. Qed.

Lemma createBitmapRegionDecoder_unsupported w stream s :
  streams w !! stream = Some s ->
  Factory s = None ->
  createBitmapRegionDecoder stream w =
    Some (None,
          set_pendingException (Some msg_unsupported)
            (set_streams (delete stream)
               (set_calls (fun c => c ++ [CallFactory stream]) w))).
Proof.
  intros Hs HF. unfold createBitmapRegionDecoder, SkImageDecoder_Factory, log.
  mstep @deref_run. mstep modify_run. rewrite HF. mstep @ret_run.
  unfold delete_stream. mstep @deref_run. mstep modify_run.
  unfold doThrowIOE. mstep modify_run. reflexivity.
Qed.

Ltac run_factory HF :=
  unfold createBitmapRegionDecoder, SkImageDecoder_Factory, log;
  mstep @deref_run; mstep modify_run; rewrite HF;
  mstep @gets_run; mstep modify_run; mstep @ret_run;
  unfold setAllocator, log;
  mstep @deref_run; mstep modify_run; mstep modify_run;
  unfold SkImageDecoder_buildTileIndex, log;
  mstep @deref_run; mstep @deref_run; mstep modify_run.

Lemma createBitmapRegionDecoder_index_failed w stream s d0 :
  streams w !! stream = Some s ->
  Factory s = Some d0 ->
  buildTileIndex (prepared d0) s = None ->
  let p := fresh (dom (decoders w)) in
  createBitmapRegionDecoder stream w =
    Some (None,
          set_pendingException (Some (msg_index_failed (getFormatName (prepared d0))))
            (set_streams (delete stream)
               (set_calls (fun c => c ++ [CallFactory stream; CallSetAllocator p;
                                          CallBuildTileIndex p stream;
                                          CallGetFormatName p]) w))).
Proof.
  intros Hs HF HB p. run_factory HF.
  fold (prepared d0). rewrite HB. mstep modify_run. mstep @ret_run.
  unfold SkImageDecoder_getFormatName, log.
  mstep @deref_run. mstep modify_run. mstep @ret_run.
  unfold doThrowIOE. mstep modify_run.
  unfold delete_decoder. mstep @deref_run. mstep modify_run.
  cbn [prepared fStream with_fAllocator with_fStream]. mstep @ret_run.
  unfold nullObjectReturn. finish. world_eq.
  rewrite delete_insert_eq. apply delete_id, fresh_lookup.
Qed.

Lemma createBitmapRegionDecoder_ok w stream s d0 impl width height :
  streams w !! stream = Some s ->
  Factory s = Some d0 ->
  buildTileIndex (prepared d0) s = Some (impl, width, height) ->
  let p := fresh (dom (decoders w)) in
  let h := fresh (dom (regionDecoders w)) in
  createBitmapRegionDecoder stream w =
    Some (Some h,
          set_regionDecoders
            (<[h := {| fDecoder := p; fWidth := width; fHeight := height |}]>)
            (set_decoders
               (<[p := with_fImpl impl (with_fStream (Some stream) (prepared d0))]>)
               (set_calls (fun c => c ++ [CallFactory stream; CallSetAllocator p;
                                          CallBuildTileIndex p stream]) w))).
Proof.
  intros Hs HF HB p h. run_factory HF.
  fold (prepared d0). rewrite HB. mstep modify_run. mstep @ret_run.
  unfold new_SkBitmapRegionDecoder. mstep @gets_run. mstep modify_run.
  mstep @ret_run. unfold GraphicsJNI_createBitmapRegionDecoder.
  finish. world_eq.
Qed.

Lemma createBitmapRegionDecoder_inv w stream r w' :
  createBitmapRegionDecoder stream w = Some (r, w') ->
  exists s, streams w !! stream = Some s.
Proof.
  destruct (streams w !! stream) as [s|] eqn:Hs; [by exists s|].
  unfold createBitmapRegionDecoder, SkImageDecoder_Factory.
  rewrite !bind_assoc_run. unfold mbind at 1, M_bind, bind, deref.
  by rewrite Hs.
Qed.

(** C1: whatever the stream holds, construction returns: a live handle
    around the decoder and the dimensions the index build found; or null
    with the pending error "Image format not supported" when no decoder
    recognizes the stream; or null with the pending error "Image failed to
    decode using <format> decoder" (cut to 99 characters), which is never
    the first message, when the index build fails.  On both failures the
    stream is gone, no handle has been created and no decoder is left
    behind. *)
Theorem create_handle_or_distinct_error w stream s :
  streams w !! stream = Some s ->
  exists r w',
    createBitmapRegionDecoder stream w = Some (r, w')
    /\ match Factory s with
       | None =>
           r = None
           /\ pendingException w' = Some "Image format not supported"%string
           /\ streams w' = delete stream (streams w)
           /\ regionDecoders w' = regionDecoders w
           /\ decoders w' = decoders w
       | Some d0 =>
           match buildTileIndex (prepared d0) s with
           | None =>
               let msg := snprintf100 ("Image failed to decode using "
                                         ++ getFormatName (prepared d0)
                                         ++ " decoder") in
               r = None
               /\ pendingException w' = Some msg
               /\ msg <> "Image format not supported"%string
               /\ streams w' = delete stream (streams w)
               /\ regionDecoders w' = regionDecoders w
               /\ decoders w' = decoders w
           | Some (impl, width, height) =>
               exists h d,
                 r = Some h
                 /\ regionDecoders w !! h = None
                 /\ regionDecoders w' =
                      <[h := {| fDecoder := d; fWidth := width; fHeight := height |}]>
                        (regionDecoders w)
                 /\ decoders w !! d = None
                 /\ decoders w' =
                      <[d := with_fImpl impl (with_fStream (Some stream) (prepared d0))]>
                        (decoders w)
                 /\ live_handle w' h = true
                 /\ streams w' = streams w
                 /\ pendingException w' = pendingException w
           end
       end.
Proof.
  intros Hs.
  destruct (Factory s) as [d0|] eqn:HF.
  2:{ eexists _, _. split; [by eapply createBitmapRegionDecoder_unsupported|].
      by cbn. }
  destruct (buildTileIndex (prepared d0) s) as [[[impl width] height]|] eqn:HB.
  - eexists _, _. split; [by eapply createBitmapRegionDecoder_ok|].
    eexists _, _. split; [reflexivity|].
    split; [apply fresh_lookup|]. split; [reflexivity|].
    split; [apply fresh_lookup|]. split; [reflexivity|].
    split; [|by cbn].
    unfold live_handle. cbn -[fresh]. rewrite !lookup_insert_eq. by cbn -[fresh].
  - eexists _, _. split; [by eapply createBitmapRegionDecoder_index_failed|].
    cbn zeta. split; [done|]. split; [done|].
    split; [apply msg_index_failed_distinct|]. by cbn.
Qed.

(** ** What a decode call leaves alone *)

Section Preserves.
Context {X : Type} (proj : World -> X).

Lemma preserves_ret {A} (a : A) : preserves proj (mret a).
Proof. by intros w a' w' [= _ <-]. Qed.

Lemma preserves_undefined {A} : preserves proj (@undefined _ A).
Proof. by intros w a w'. Qed.

Lemma preserves_gets {A} (f : World -> A) : preserves proj (gets f).
Proof. by intros w a' w' [= _ <-]. Qed.

Lemma preserves_deref {A} (heap : World -> gmap positive A) p :
  preserves proj (deref heap p).
Proof.
  intros w a w'. unfold deref. destruct (heap w !! p); [|done].
  by intros [= _ <-].
Qed.

Lemma preserves_modify f :
  (forall w, proj (f w) = proj w) -> preserves proj (modify f).
Proof. intros Hf w a w' [= _ <-]. apply Hf. Qed.

Lemma preserves_bind {A B} (m : M A) (k : A -> M B) :
  preserves proj m -> (forall a, preserves proj (k a)) ->
  preserves proj (m ≫= k).
Proof.
  intros Hm Hk w b w'. unfold mbind, M_bind, bind.
  destruct (m w) as [[a w1]|] eqn:E; [|done].
  intros Hrun. rewrite (Hk _ _ _ _ Hrun). by eapply Hm.
Qed.

End Preserves.

(** Decomposes a computation into its primitive steps; what remains are
    the [modify] steps that might touch the component. *)
Ltac preserves_steps :=
  repeat first
    [ apply preserves_ret
    | apply preserves_undefined
    | apply preserves_gets
    | apply preserves_deref
    | apply preserves_modify; intros ?; reflexivity
    | apply preserves_bind; [ | intros ? ]
    | match goal with
      | |- preserves _ (match ?x with _ => _ end) => destruct x
      end ].

Ltac unfold_calls :=
  unfold nativeDecodeRegion, readOptions, getDecoder, decodeRegion,
    setDitherImage, setPreferQualityOverSpeed, setRequireUnpremultipliedColors,
    setSampleSize, SkImageDecoder_decodeSubset, SkImageDecoder_getFormat,
    getStorageObjAndReset, notifyPixelsChanged, getSkBitmap, createBitmap,
    GetField, SetField, nullObjectReturn, log.

Lemma nativeDecodeRegion_preserves_regionDecoders h sx sy wd ht options :
  preserves regionDecoders (nativeDecodeRegion h sx sy wd ht options).
Proof.
  unfold_calls.
  unfold with_AutoDecoderCancel, AutoDecoderCancel_ctor, AutoDecoderCancel_dtor.
  preserves_steps.
Qed.

Lemma decode_calls_regionDecoders w1 w2 :
  decode_calls w1 w2 -> regionDecoders w2 = regionDecoders w1.
Proof.
  induction 1 as [|w w1 w2 h sx sy wd ht options r Hrun _ IH]; [done|].
  rewrite IH. by eapply nativeDecodeRegion_preserves_regionDecoders.
Qed.

(** C3: once construction has succeeded, [nativeGetWidth] and
    [nativeGetHeight] return the width and height that the index build
    found, after any number of [nativeDecodeRegion] calls. *)
Theorem dimensions_fixed_at_construction w stream h w1 w2 :
  createBitmapRegionDecoder stream w = Some (Some h, w1) ->
  decode_calls w1 w2 ->
  exists s d0 impl width height,
    streams w !! stream = Some s
    /\ Factory s = Some d0
    /\ buildTileIndex (prepared d0) s = Some (impl, width, height)
    /\ nativeGetWidth h w2 = Some (width, w2)
    /\ nativeGetHeight h w2 = Some (height, w2).
Proof.
  intros Hcreate Hcalls.
  destruct (createBitmapRegionDecoder_inv _ _ _ _ Hcreate) as [s Hs].
  destruct (Factory s) as [d0|] eqn:HF.
  2:{ by rewrite (createBitmapRegionDecoder_unsupported _ _ _ Hs HF) in Hcreate. }
  destruct (buildTileIndex (prepared d0) s) as [[[impl width] height]|] eqn:HB.
  2:{ by rewrite (createBitmapRegionDecoder_index_failed _ _ _ _ Hs HF HB)
        in Hcreate. }
  rewrite (createBitmapRegionDecoder_ok _ _ _ _ _ _ _ Hs HF HB) in Hcreate.
  injection Hcreate as <- <-.
  assert (regionDecoders w2 !! fresh (dom (regionDecoders w)) =
            Some {| fDecoder := fresh (dom (decoders w));
                    fWidth := width; fHeight := height |}) as Hh.
  { rewrite (decode_calls_regionDecoders _ _ Hcalls). cbn -[fresh].
    by rewrite lookup_insert_eq. }
  exists s, d0, impl, width, height. repeat split; try done.
  - unfold nativeGetWidth, getWidth.
    by erewrite bind_Some by (apply deref_run, Hh).
  - unfold nativeGetHeight, getHeight.
    by erewrite bind_Some by (apply deref_run, Hh).
Qed.

(** ** Region decode *)

(** C2 (as amended): when the bundle's cancel flag is already set at entry,
    the call returns null without setting the sample size and without
    invoking the subset decode; the only calls it has made on the backend
    are the three setters, which have stored the bundle's dither,
    quality-preference and premultiplication settings in the decoder. *)
Theorem cancelled_call_skips_decode w h sx sy wd ht o opts brd dec :
  regionDecoders w !! h = Some brd ->
  decoders w !! fDecoder brd = Some dec ->
  optionsObjs w !! o = Some opts ->
  gOptions_mCancel opts = true ->
  exists w',
    nativeDecodeRegion h sx sy wd ht (Some o) w = Some (None, w')
    /\ calls w' = calls w ++
         [CallSetDitherImage (fDecoder brd) (gOptions_dither opts);
          CallSetPreferQualityOverSpeed (fDecoder brd)
            (gOptions_preferQualityOverSpeed opts);
          CallSetRequireUnpremultipliedColors (fDecoder brd)
            (negb (gOptions_premultiplied opts))]
    /\ decoders w' =
         <[fDecoder brd :=
             with_fRequireUnpremultipliedColors (negb (gOptions_premultiplied opts))
               (with_fPreferQualityOverSpeed (gOptions_preferQualityOverSpeed opts)
                  (with_fDitherImage (gOptions_dither opts) dec))]> (decoders w)
    /\ pendingException w' = pendingException w.
Proof.
  intros Hb Hd Ho Hc. eexists. split.
  - by eapply nativeDecodeRegion_cancelled.
  - by cbn.
Qed.

(** C6: without an options bundle the decode runs with the defaults.  The
    backend is set to dither, not to prefer quality over speed and not to
    require unpremultiplied colors; the sample size is 1; the subset decode
    gets the unknown color type and an empty bitmap, not a reuse buffer;
    and a bitmap that comes back is a new one. *)
Theorem defaults_without_options w h sx sy wd ht brd :
  live_handle w h = true ->
  regionDecoders w !! h = Some brd ->
  exists r w' self rest,
    nativeDecodeRegion h sx sy wd ht None w = Some (r, w')
    /\ calls w' = calls w ++
         [CallSetDitherImage (fDecoder brd) true;
          CallSetPreferQualityOverSpeed (fDecoder brd) false;
          CallSetRequireUnpremultipliedColors (fDecoder brd) false;
          CallSetSampleSize (fDecoder brd) 1;
          CallDecodeSubset (fDecoder brd) self emptyBitmap
            (region_of sx sy wd ht) kUnknown_SkColorType] ++ rest
    /\ fSampleSize self = 1
    /\ fDitherImage self = true
    /\ fPreferQualityOverSpeed self = false
    /\ fRequireUnpremultipliedColors self = false
    /\ (forall jb, r = Some jb -> bitmapObjs w !! jb = None).
Proof.
  intros Hl Hb.
  destruct (nativeDecodeRegion_path w h sx sy wd ht None Hl eq_refl)
    as (r & w' & Hrun & Hp).
  exists r, w'.
  destruct Hp as [ ? ? ? ? ? ? [=] | brd' dec bm Hb' Hd l d self rect r Hc Ht Hr
                 | ? ? ? ? ? ? ? ? [=] | brd' dec a Hb' Hd Ha l d self rect r jb Hc Ht Hr ].
  - rewrite Hb in Hb'. injection Hb' as <-.
    cbn in Ht. injection Ht as <-.
    exists self, []. by repeat split.
  - rewrite Hb in Hb'. injection Hb' as <-.
    exists self, [CallGetAllocator d]. repeat split; try done.
    intros jb' [= <-]. apply fresh_lookup.
Qed.

(** [update_bundle] only touches the options objects. *)
Lemma update_bundle_calls o f w : calls (update_bundle o f w) = calls w.
Proof. by destruct o. Qed.

Lemma update_bundle_decoders o f w : decoders (update_bundle o f w) = decoders w.
Proof. by destruct o. Qed.

Lemma update_bundle_regionDecoders o f w :
  regionDecoders (update_bundle o f w) = regionDecoders w.
Proof. by destruct o. Qed.

Lemma update_bundle_bitmapObjs o f w :
  bitmapObjs (update_bundle o f w) = bitmapObjs w.
Proof. by destruct o. Qed.

Lemma update_bundle_pendingException o f w :
  pendingException (update_bundle o f w) = pendingException w.
Proof. by destruct o. Qed.

Lemma update_bundle_gAutoDecoderCancel o f w :
  gAutoDecoderCancel (update_bundle o f w) = gAutoDecoderCancel w.
Proof. by destruct o. Qed.

Lemma update_bundle_optionsObjs o f w :
  optionsObjs (update_bundle (Some o) f w) = alter f o (optionsObjs w).
Proof. reflexivity. Qed.

(** Reads a component of a world that a path has left. *)
Ltac read_world :=
  cbn [calls decoders regionDecoders bitmapObjs optionsObjs streams
       pendingException gAutoDecoderCancel
       set_calls set_decoders set_bitmapObjs set_optionsObjs];
  rewrite ?update_bundle_calls, ?update_bundle_decoders,
    ?update_bundle_regionDecoders, ?update_bundle_bitmapObjs,
    ?update_bundle_pendingException, ?update_bundle_gAutoDecoderCancel,
    ?update_bundle_optionsObjs.

Ltac read_world_in Hw :=
  cbn [calls decoders regionDecoders bitmapObjs optionsObjs streams
       pendingException gAutoDecoderCancel
       set_calls set_decoders set_bitmapObjs set_optionsObjs] in Hw;
  rewrite ?update_bundle_calls, ?update_bundle_decoders,
    ?update_bundle_regionDecoders, ?update_bundle_bitmapObjs,
    ?update_bundle_pendingException, ?update_bundle_gAutoDecoderCancel,
    ?update_bundle_optionsObjs in Hw.

(** Finds a call in an explicit list of calls. *)
Ltac find_call Hin :=
  cbn in Hin;
  repeat (apply elem_of_cons in Hin as [Hin|Hin]);
  try discriminate Hin;
  try (by apply elem_of_nil in Hin).

(** The subset decode a call has made is the one the code sets up: on the
    handle's decoder, configured from the bundle, into the target bitmap,
    for the requested region; and the call returns null exactly when the
    backend refuses. *)
Lemma decode_path_subset_call w h sx sy wd ht options res w' new d self bm rect pref :
  decode_path w h sx sy wd ht options res w' ->
  calls w' = calls w ++ new ->
  CallDecodeSubset d self bm rect pref ∈ new ->
  let l := locals_of (bundle w options) in
  exists brd dec,
    regionDecoders w !! h = Some brd
    /\ decoders w !! fDecoder brd = Some dec
    /\ d = fDecoder brd
    /\ self = with_fSampleSize (sampleSize l) (with_flags l dec)
    /\ target_bitmap w (tileBitmap l) = Some bm
    /\ rect = region_of sx sy wd ht
    /\ pref = prefColorType l
    /\ cancel_requested (bundle w options) = false
    /\ (res = None <-> decoded (decodeSubset self bm rect pref) = false).
Proof.
  intros Hp Hcalls Hin l.
  destruct Hp as [ brd dec o opts Hb Hd -> Ho Hc l0
                 | brd dec bm0 Hb Hd l0 d0 self0 rect0 r0 Hc Ht Hr
                 | brd dec o opts tb bm0 Hb Hd -> Ho Hc Htb Ht l0 d0 self0 rect0 r0 Hr
                 | brd dec a Hb Hd Ha l0 d0 self0 rect0 r0 jb Hc Ht Hr ];
    read_world_in Hcalls; apply app_inv_head in Hcalls; subst new.
  - find_call Hin.
  - find_call Hin. injection Hin as -> -> -> -> ->.
    exists brd, dec. by repeat split.
  - find_call Hin. injection Hin as -> -> -> -> ->.
    exists brd, dec. subst l. cbn [bundle mbind option_bind]. rewrite Ho.
    cbn [cancel_requested locals_of tileBitmap]. rewrite Htb.
    repeat split; try done.
    intros Hf. change (decoded r0 = false) in Hf. congruence.
  - destruct options; find_call Hin; injection Hin as -> -> -> -> ->;
      exists brd, dec; subst l; fold l0; rewrite Ht;
      (repeat split; try done;
       intros Hf; change (decoded r0 = false) in Hf; congruence).
Qed.

(** Every path only adds calls, and every path but the cancelled one makes
    the subset decode for the requested region. *)
Lemma decode_path_calls w h sx sy wd ht options res w' :
  decode_path w h sx sy wd ht options res w' ->
  exists new,
    calls w' = calls w ++ new
    /\ (cancel_requested (bundle w options) = false ->
        exists d self bm pref,
          CallDecodeSubset d self bm (region_of sx sy wd ht) pref ∈ new).
Proof.
  intros Hp.
  destruct Hp as [ brd dec o opts Hb Hd -> Ho Hc l0
                 | brd dec bm0 Hb Hd l0 d0 self0 rect0 r0 Hc Ht Hr
                 | brd dec o opts tb bm0 Hb Hd -> Ho Hc Htb Ht l0 d0 self0 rect0 r0 Hr
                 | brd dec a Hb Hd Ha l0 d0 self0 rect0 r0 jb Hc Ht Hr ];
    eexists; (split; [read_world; reflexivity|]).
  - cbn. rewrite Ho. cbn. congruence.
  - intros _. exists d0, self0, bm0, (prefColorType l0). cbn. set_solver.
  - intros _. exists d0, self0, bm0, (prefColorType l0). cbn. set_solver.
  - intros _. exists d0, self0, emptyBitmap, (prefColorType l0). cbn. set_solver.
Qed.

Lemma jint_wrap_in_range z : jint_range z -> jint_wrap z = z.
Proof.
  unfold jint_range, jint_min, jint_max, jint_wrap. intros Hz.
  rewrite Z.mod_small; lia.
Qed.

(** C7: the rectangle handed to the backend is the one computed from the
    arguments: left and top are [start_x] and [start_y], right and bottom
    are the [jint] sums [start_x + width] and [start_y + height] (the exact
    sums whenever they fit a [jint]).  The image dimensions play no part:
    nothing is clamped, whatever the handle's width and height. *)
Theorem region_forwarded_unclamped w h start_x start_y width height options :
  live_handle w h = true ->
  valid_options w options = true ->
  let region := {| fLeft := start_x;
                   fTop := start_y;
                   fRight := jint_add start_x width;
                   fBottom := jint_add start_y height |} in
  exists r w' new,
    nativeDecodeRegion h start_x start_y width height options w = Some (r, w')
    /\ calls w' = calls w ++ new
    /\ (cancel_requested (bundle w options) = false ->
        exists d self bm pref, CallDecodeSubset d self bm region pref ∈ new)
    /\ (forall d self bm rect pref,
          CallDecodeSubset d self bm rect pref ∈ new -> rect = region)
    /\ (jint_range (start_x + width) -> fRight region = start_x + width)
    /\ (jint_range (start_y + height) -> fBottom region = start_y + height).
Proof.
  intros Hl Hv region.
  destruct (nativeDecodeRegion_path w h start_x start_y width height options Hl Hv)
    as (r & w' & Hrun & Hp).
  destruct (decode_path_calls _ _ _ _ _ _ _ _ _ Hp) as (new & Hcalls & Hsome).
  exists r, w', new. repeat split; try done.
  - intros d self bm rect pref Hin.
    by destruct (decode_path_subset_call _ _ _ _ _ _ _ _ _ _ _ _ _ _ _
                   Hp Hcalls Hin) as (? & ? & _ & _ & _ & _ & _ & -> & _).
  - apply jint_wrap_in_range.
  - apply jint_wrap_in_range.
Qed.

(** The guard's destructor undoes its constructor, whatever ran between
    them, as long as that left the list alone. *)
Lemma with_AutoDecoderCancel_restores {A} options d (rest : M A) :
  preserves gAutoDecoderCancel rest ->
  preserves gAutoDecoderCancel (with_AutoDecoderCancel options d rest).
Proof.
  intros Hrest w a w'.
  unfold with_AutoDecoderCancel, AutoDecoderCancel_ctor, AutoDecoderCancel_dtor.
  destruct options as [o|].
  - erewrite bind_Some by apply modify_run.
    unfold mbind at 1, M_bind, bind.
    destruct (rest _) as [[r w1]|] eqn:E; [|done].
    erewrite bind_Some by apply modify_run. intros [= _ <-].
    cbn -[unregister]. rewrite (Hrest _ _ _ E). cbn -[unregister].
    apply unregister_head.
  - erewrite bind_Some by apply ret_run.
    unfold mbind at 1, M_bind, bind.
    destruct (rest _) as [[r w1]|] eqn:E; [|done].
    erewrite bind_Some by apply ret_run. intros [= _ <-].
    by rewrite (Hrest _ _ _ E).
Qed.

Lemma nativeDecodeRegion_preserves_guard h sx sy wd ht options :
  preserves gAutoDecoderCancel (nativeDecodeRegion h sx sy wd ht options).
Proof.
  unfold nativeDecodeRegion.
  do 5 (apply preserves_bind; [unfold_calls; preserves_steps | intros ?]).
  apply with_AutoDecoderCancel_restores.
  unfold_calls. preserves_steps.
Qed.

(** While the rest of the function runs, the registration is in the list. *)
Lemma guard_registered_meanwhile o d w :
  with_AutoDecoderCancel (Some o) d (gets gAutoDecoderCancel) w =
    Some ((o, d) :: gAutoDecoderCancel w, w).
Proof.
  unfold with_AutoDecoderCancel, AutoDecoderCancel_ctor, AutoDecoderCancel_dtor.
  mstep modify_run. mstep @gets_run. mstep modify_run. finish. world_eq.
Qed.

(** C9: the guard registered at entry is unregistered on every exit.  No
    call that returns leaves a registration behind; a well-formed call does
    return, along one of the four paths (cancel pre-check, backend failure,
    decode into the reuse bitmap, decode into fresh storage); and between
    construction and destruction the registration is there. *)
Theorem guard_unregistered_on_every_exit h start_x start_y width height options :
  (forall w r w',
     nativeDecodeRegion h start_x start_y width height options w = Some (r, w') ->
     gAutoDecoderCancel w' = gAutoDecoderCancel w)
  /\ (forall w,
        live_handle w h = true ->
        valid_options w options = true ->
        exists r w',
          nativeDecodeRegion h start_x start_y width height options w = Some (r, w')
          /\ decode_path w h start_x start_y width height options r w')
  /\ (forall o d w,
        with_AutoDecoderCancel (Some o) d (gets gAutoDecoderCancel) w =
          Some ((o, d) :: gAutoDecoderCancel w, w)).
Proof.
  split; [|split].
  - apply nativeDecodeRegion_preserves_guard.
  - intros w. apply nativeDecodeRegion_path.
  - apply guard_registered_meanwhile.
Qed.

(** C10: with a bundle, the entry block sets its width and height to -1
    and its MIME to null before anything is decoded, and a call that fails,
    at the cancel pre-check or in the backend, leaves them so: the caller
    finds the bundle changed although nothing was decoded. *)
Theorem outputs_reset_on_failure w h start_x start_y width height o opts w' :
  live_handle w h = true ->
  valid_options w (Some o) = true ->
  optionsObjs w !! o = Some opts ->
  nativeDecodeRegion h start_x start_y width height (Some o) w = Some (None, w') ->
  (exists l w1 opts1,
     readOptions (Some o) w = Some (l, w1)
     /\ optionsObjs w1 !! o = Some opts1
     /\ gOptions_width opts1 = -1
     /\ gOptions_height opts1 = -1
     /\ gOptions_mime opts1 = None)
  /\ exists opts',
       optionsObjs w' !! o = Some opts'
       /\ gOptions_width opts' = -1
       /\ gOptions_height opts' = -1
       /\ gOptions_mime opts' = None.
Proof.
  intros Hl Hv Ho Hrun. split.
  - eexists _, _, (reset_outputs opts).
    split; [by apply readOptions_run|].
    split; [|done]. cbn. by rewrite lookup_alter_eq, Ho.
  - exists (reset_outputs opts). split; [|done].
    pose proof (nativeDecodeRegion_inv _ _ _ _ _ _ _ _ _ Hl Hv Hrun) as Hp.
    inversion Hp; subst; read_world; by rewrite lookup_alter_eq, Ho.
Qed.

Lemma reset_outputs_bitmap o : gOptions_bitmap (reset_outputs o) = gOptions_bitmap o.
Proof. reflexivity. Qed.

(** Options references stay valid when a call only rewrites output fields
    of one bundle and adds no Java bitmap. *)
Lemma valid_options_after w w' options f options' :
  (forall o, gOptions_bitmap (f o) = gOptions_bitmap o) ->
  optionsObjs w' = optionsObjs (update_bundle options f w) ->
  bitmapObjs w' = bitmapObjs w ->
  valid_options w options' = true ->
  valid_options w' options' = true.
Proof.
  intros Hf Ho Hbm. destruct options' as [o'|]; [|done].
  unfold valid_options, valid_bitmap. rewrite Ho, Hbm.
  destruct options as [o|]; [|done]. cbn.
  rewrite lookup_alter.
  destruct (decide (o = o')) as [->|]; [|done].
  destruct (optionsObjs w !! o') as [opts|]; [|done]. cbn. by rewrite Hf.
Qed.

(** C4: when the backend's subset decode returns false, the call returns
    null and nothing else: no exception is raised and nothing tells one
    backend failure from another.  The handle and its decoder stay
    allocated, every options reference that was valid still is, and any
    further decode call on the handle returns. *)
Theorem decode_failure_uniform_handle_reusable
    w h start_x start_y width height options r w' new d self bm rect pref :
  live_handle w h = true ->
  valid_options w options = true ->
  nativeDecodeRegion h start_x start_y width height options w = Some (r, w') ->
  calls w' = calls w ++ new ->
  CallDecodeSubset d self bm rect pref ∈ new ->
  decoded (decodeSubset self bm rect pref) = false ->
  r = None
  /\ pendingException w' = pendingException w
  /\ regionDecoders w' = regionDecoders w
  /\ live_handle w' h = true
  /\ (forall options', valid_options w options' = true ->
                       valid_options w' options' = true)
  /\ (forall start_x' start_y' width' height' options',
        valid_options w' options' = true ->
        exists r' w'',
          nativeDecodeRegion h start_x' start_y' width' height' options' w'
            = Some (r', w'')).
Proof.
  intros Hl Hv Hrun Hcalls Hin Hfalse.
  pose proof (nativeDecodeRegion_inv _ _ _ _ _ _ _ _ _ Hl Hv Hrun) as Hp.
  destruct (decode_path_subset_call _ _ _ _ _ _ _ _ _ _ _ _ _ _ _ Hp Hcalls Hin)
    as (brd & dec & Hb & Hd & _ & _ & _ & _ & _ & Hc & Hnone).
  apply Hnone in Hfalse as ->. clear Hnone Hin Hcalls new.
  destruct (live_handle_inv _ _ Hl) as (brd' & dec' & a & Hb' & Hd' & Ha).
  rewrite Hb in Hb'. injection Hb' as <-. rewrite Hd in Hd'. injection Hd' as <-.
  assert (live_handle w' h = true /\
          pendingException w' = pendingException w /\
          regionDecoders w' = regionDecoders w /\
          optionsObjs w' = optionsObjs (update_bundle options reset_outputs w) /\
          bitmapObjs w' = bitmapObjs w) as (Hl' & He & Hr & Ho & Hbm).
  { inversion Hp as [ brd1 dec1 o opts Hb1 Hd1 -> Ho Hc1 l0 E1 E2
                    | brd1 dec1 bm0 Hb1 Hd1 l0 d0 self0 rect0 r0 Hc1 Ht Hr E1 E2
                    | | ].
    - cbn in Hc. rewrite Ho in Hc. cbn in Hc. congruence.
    - unfold live_handle. read_world. rewrite Hb1.
      rewrite lookup_insert_eq. rewrite Hb in Hb1. injection Hb1 as <-.
      rewrite Hd in Hd1. injection Hd1 as <-.
      cbn. rewrite Ha. by repeat split. }
  repeat split; try done.
  - intros options'. by apply (valid_options_after _ _ options reset_outputs).
  - intros sx' sy' wd' ht' options' Hv'.
    destruct (nativeDecodeRegion_path w' h sx' sy' wd' ht' options' Hl' Hv')
      as (r' & w'' & Hrun' & _).
    by exists r', w''.
Qed.

(** C5: a call with a bundle that returns a bitmap has made one subset
    decode that succeeded, and has written the decoded bitmap's width and
    height and the MIME type of the decoder's format into the bundle,
    whether it decoded into a reuse bitmap or into fresh storage.  With a
    reuse bitmap, that bitmap was the decode target, the last thing the
    call did to it was [notifyPixelsChanged] on the decoded bitmap, and the
    reuse bitmap itself is the result; without one the result is a new Java
    bitmap. *)
Theorem options_written_back w h start_x start_y width height o res w' :
  live_handle w h = true ->
  valid_options w (Some o) = true ->
  nativeDecodeRegion h start_x start_y width height (Some o) w
    = Some (Some res, w') ->
  exists d self bm rect pref new opts',
    calls w' = calls w ++ new
    /\ CallDecodeSubset d self bm rect pref ∈ new
    /\ let out := decodeSubset self bm rect pref in
       decoded out = true
       /\ optionsObjs w' !! o = Some opts'
       /\ gOptions_width opts' = bmWidth (outBitmap out)
       /\ gOptions_height opts' = bmHeight (outBitmap out)
       /\ gOptions_mime opts' = getMimeTypeString (getFormat (after_decode out self))
       /\ match gOptions_bitmap opts' with
          | Some tb =>
              res = tb
              /\ target_bitmap w (Some tb) = Some bm
              /\ last new = Some (CallNotifyPixelsChanged (outBitmap out))
              /\ bitmapObjs w' = bitmapObjs w
          | None =>
              bm = emptyBitmap
              /\ bitmapObjs w !! res = None
              /\ is_Some (bitmapObjs w' !! res)
          end.
Proof.
  intros Hl Hv Hrun.
  pose proof (nativeDecodeRegion_inv _ _ _ _ _ _ _ _ _ Hl Hv Hrun) as Hp.
  inversion Hp as [ | | brd dec o' opts tb bm Hb Hd [= <-] Ho Hc Htb Ht
                          l d self rect r Hr E1 E2
                      | brd dec a Hb Hd Ha l d self rect r jb Hc Htb Hr E1 E2 ].
  - exists d, self, bm, rect, (prefColorType l).
    eexists _, (record_output r self opts).
    split; [read_world; reflexivity|].
    split; [cbn; set_solver|].
    cbn zeta. split; [done|].
    split; [read_world; by rewrite lookup_alter_eq, Ho|].
    do 3 (split; [reflexivity|]).
    cbn [record_output gOptions_bitmap with_mime with_height with_width reset_outputs].
    rewrite Htb. repeat split. exact Ht.
  - destruct (valid_options_inv _ _ Hv) as (opts & Ho & _).
    assert (l = locals_of (Some opts)) as Hlo.
    { subst l. cbn. by rewrite Ho. }
    exists d, self, emptyBitmap, rect, (prefColorType l).
    eexists _, (record_output r self opts).
    split; [read_world; reflexivity|].
    split; [cbn; set_solver|].
    cbn zeta. split; [done|].
    split; [read_world; by rewrite lookup_alter_eq, Ho|].
    do 3 (split; [reflexivity|]).
    cbn [record_output gOptions_bitmap with_mime with_height with_width reset_outputs].
    rewrite Hlo in Htb. cbn in Htb. rewrite Htb. repeat split.
    + apply fresh_lookup.
    + read_world. rewrite lookup_insert_eq. by eexists.
Qed.

(** C8: a call that succeeds without a reuse bitmap returns a new Java
    bitmap whose creation flags carry the premultiplied flag exactly when
    unpremultiplied output was not required, where that requirement is the
    negation of the bundle's premultiplied field, and false without a
    bundle. *)
Theorem fresh_bitmap_premultiplied_flag w h start_x start_y width height options res w' :
  kBitmapCreateFlag_Premultiplied <> 0 ->
  live_handle w h = true ->
  valid_options w options = true ->
  bundle w options ≫= gOptions_bitmap = None ->
  nativeDecodeRegion h start_x start_y width height options w
    = Some (Some res, w') ->
  let requireUnpremultiplied :=
    match bundle w options with
    | Some opts => negb (gOptions_premultiplied opts)
    | None => false
    end in
  exists jb,
    bitmapObjs w !! res = None
    /\ bitmapObjs w' !! res = Some jb
    /\ (isPremultiplied (jbCreateFlags jb) = true
        <-> requireUnpremultiplied = false).
Proof.
  intros HK Hl Hv Hnone Hrun req.
  pose proof (nativeDecodeRegion_inv _ _ _ _ _ _ _ _ _ Hl Hv Hrun) as Hp.
  inversion Hp as [ | | brd dec o' opts tb bm Hb Hd -> Ho Hc Htb Ht
                          l d self rect r Hr E1 E2
                      | brd dec a Hb Hd Ha l d self rect r jb Hc Htb Hr E1 E2 ].
  - cbn in Hnone. rewrite Ho in Hnone. cbn in Hnone. congruence.
  - eexists. split; [apply fresh_lookup|].
    split; [read_world; by rewrite lookup_insert_eq|].
    cbn [jbCreateFlags]. unfold isPremultiplied, bitmapCreateFlags_of.
    assert (requireUnpremultiplied l = req) as ->.
    { subst l req. by destruct (bundle w options). }
    destruct req; cbn [negb].
    + rewrite Z.land_0_l. by cbn.
    + rewrite Z.lor_0_l, Z.land_diag.
      destruct (Z.eqb_spec kBitmapCreateFlag_Premultiplied 0); by cbn.
Qed.

(** * Beyond the claims *)

Context `{!Platform}.

(** ** The message of an index-build failure (lines 86-88) *)

Lemma string_length_append (s1 s2 : string) :
  String.length (s1 ++ s2) = (String.length s1 + String.length s2)%nat.
Proof. induction s1 as [|c s1 IH]; simpl; [done|]. by f_equal. Qed.

Lemma substring_0_length n (s : string) :
  String.length (substring 0 n s) = Nat.min n (String.length s).
Proof.
  revert n. induction s as [|c s IH]; intros [|n]; simpl; try done.
  by f_equal.
Qed.

Lemma substring_0_all n (s : string) :
  (String.length s <= n)%nat -> substring 0 n s = s.
Proof.
  revert n. induction s as [|c s IH]; intros [|n]; simpl; try done; [lia|].
  intros Hn. f_equal. apply IH. lia.
Qed.

Lemma msg_broken_descriptor_distinct name :
  msg_unsupported <> msg_broken_descriptor
  /\ msg_index_failed name <> msg_broken_descriptor.
Proof.
  unfold msg_index_failed, msg_unsupported, msg_broken_descriptor, snprintf100.
  split; cbn; discriminate.
Qed.

(** X1: the message built in [char msg[100]] never has more than 99
    characters, whatever the format name; it is the whole formatted text
    when the name has at most 62 characters; and a caller can always tell
    the three error messages of this file apart. *)
Theorem index_failure_message_fits name :
  (String.length (msg_index_failed name) <= 99)%nat
  /\ ((String.length name <= 62)%nat ->
      msg_index_failed name
        = ("Image failed to decode using " ++ name ++ " decoder")%string)
  /\ msg_index_failed name <> msg_unsupported
  /\ msg_index_failed name <> msg_broken_descriptor
  /\ msg_unsupported <> msg_broken_descriptor.
Proof.
  split; [|split; [|split; [|split]]].
  - unfold msg_index_failed, snprintf100. rewrite substring_0_length. lia.
  - intros Hn. unfold msg_index_failed, snprintf100.
    apply substring_0_all. rewrite !string_length_append. cbn. lia.
  - apply msg_index_failed_distinct.
  - apply msg_broken_descriptor_distinct.
  - apply (msg_broken_descriptor_distinct name).
Qed.

(** ** Opening an image *)

Lemma new_SkMemoryStream_run data w :
  new_SkMemoryStream data w =
    Some (fresh (dom (streams w)),
          set_streams (<[fresh (dom (streams w)) := data]>) w).
Proof. reflexivity. Qed.

Lemma open_stream_outcome data w :
  exists r w',
    (new_SkMemoryStream data ≫= createBitmapRegionDecoder) w = Some (r, w')
    /\ open_outcome data w r w'.
Proof.
  erewrite bind_Some by apply new_SkMemoryStream_run.
  set (p := fresh (dom (streams w))).
  set (w1 := set_streams (<[p := data]>) w).
  assert (streams w1 !! p = Some data) as Hs by apply lookup_insert_eq.
  assert (streams w !! p = None) as Hp by apply fresh_lookup.
  assert (delete p (<[p := data]> (streams w)) = streams w) as Hdel.
  { rewrite delete_insert_eq. by apply delete_id. }
  unfold open_outcome.
  destruct (Factory data) as [d0|] eqn:HF.
  2:{ eexists _, _. split; [by eapply createBitmapRegionDecoder_unsupported|].
      by repeat split. }
  destruct (buildTileIndex (prepared d0) data) as [[[impl width] height]|] eqn:HB.
  - eexists _, _. split; [by eapply createBitmapRegionDecoder_ok|].
    set (h := fresh (dom (regionDecoders w1))).
    set (d := fresh (dom (decoders w1))).
    assert (live_handle
              (set_regionDecoders
                 (<[h := {| fDecoder := d; fWidth := width; fHeight := height |}]>)
                 (set_decoders
                    (<[d := with_fImpl impl (with_fStream (Some p) (prepared d0))]>)
                    (set_calls (fun c => c ++ [CallFactory p; CallSetAllocator d;
                                               CallBuildTileIndex d p]) w1))) h
            = true) as Hlive.
    { unfold live_handle. cbn -[fresh]. rewrite !lookup_insert_eq. by cbn. }
    split.
    + exists p, {| fDecoder := d; fWidth := width; fHeight := height |},
        (with_fImpl impl (with_fStream (Some p) (prepared d0))).
      repeat split; try done; apply fresh_lookup.
    + exists h. split; [done|].
      unfold nativeGetWidth, nativeGetHeight, getWidth, getHeight.
      split; [|split; [|done]].
      * by erewrite bind_Some
          by (apply deref_run; cbn -[fresh]; apply lookup_insert_eq).
      * by erewrite bind_Some
          by (apply deref_run; cbn -[fresh]; apply lookup_insert_eq).
  - eexists _, _. split; [by eapply createBitmapRegionDecoder_index_failed|].
    by repeat split.
Qed.

(** X2: for an offset and a length inside the array, opening a byte array
    opens exactly the bytes [offset, offset + length) of it: the stream has
    [length] bytes, the factory and the index build decide on these bytes,
    a failure leaves nothing allocated and a success leaves the stream with
    the new handle's decoder. *)
Theorem byte_array_slice_opened (byteArray : list Byte.byte) offset len isShareable w :
  0 <= offset ->
  0 <= len ->
  offset + len <= Z.of_nat (List.length byteArray) ->
  let data := take (Z.to_nat len) (drop (Z.to_nat offset) byteArray) in
  List.length data = Z.to_nat len
  /\ exists r w',
       nativeNewInstanceFromByteArray byteArray offset len isShareable w
         = Some (r, w')
       /\ open_outcome data w r w'.
Proof.
  intros Ho Hl Hb data. split.
  - subst data. rewrite length_take, length_drop. lia.
  - unfold nativeNewInstanceFromByteArray.
    assert ((0 <=? offset) && (0 <=? len)
            && (offset + len <=? Z.of_nat (List.length byteArray)) = true) as ->.
    { rewrite !andb_true_iff, !Z.leb_le. done. }
    apply open_stream_outcome.
Qed.

(** X3: opening a file descriptor.  A null descriptor object and a
    descriptor that [fstat] rejects are reported, by a null-pointer
    exception and by the error "broken file descriptor", before anything
    is read: the backend is not asked and nothing is allocated.  Otherwise
    the bytes of the file are opened like any stream. *)
Theorem file_descriptor_opened fileDescriptor isShareable w :
  exists r w',
    nativeNewInstanceFromFileDescriptor fileDescriptor isShareable w = Some (r, w')
    /\ match fileDescriptor with
       | None =>
           r = None
           /\ pendingException w' = Some NullPointerException
           /\ calls w' = calls w
           /\ opened_or_released [] w r w'
       | Some descriptor =>
           if fstat descriptor =? -1 then
             r = None
             /\ pendingException w' = Some "broken file descriptor"%string
             /\ calls w' = calls w
             /\ opened_or_released [] w r w'
           else open_outcome (NewFromFD descriptor) w r w'
       end.
Proof.
  unfold nativeNewInstanceFromFileDescriptor.
  destruct fileDescriptor as [descriptor|].
  - destruct (fstat descriptor =? -1).
    + eexists _, _. split; [reflexivity|]. by repeat split.
    + apply open_stream_outcome.
  - eexists _, _. split; [reflexivity|]. by repeat split.
Qed.

(** X4: opening a Java input stream or an asset.  When the copy helper
    returns null the call returns null and leaves the world as it was: no
    exception is raised here and the backend is not asked.  Otherwise the
    copied bytes are opened like any stream. *)
Theorem copied_source_opened isShareable w :
  (forall input storage,
     exists r w',
       nativeNewInstanceFromStream input storage isShareable w = Some (r, w')
       /\ match CopyJavaInputStream input storage with
          | None => r = None /\ w' = w
          | Some data => open_outcome data w r w'
          end)
  /\ (forall native_asset,
        exists r w',
          nativeNewInstanceFromAsset native_asset isShareable w = Some (r, w')
          /\ match CopyAssetToStream native_asset with
             | None => r = None /\ w' = w
             | Some data => open_outcome data w r w'
             end).
Proof.
  split.
  - intros input storage. unfold nativeNewInstanceFromStream.
    destruct (CopyJavaInputStream input storage) as [data|].
    + apply open_stream_outcome.
    + by eexists _, _.
  - intros native_asset. unfold nativeNewInstanceFromAsset.
    destruct (CopyAssetToStream native_asset) as [data|].
    + apply open_stream_outcome.
    + by eexists _, _.
Qed.

(** ** What no decode call changes *)

Lemma bind_deref_None {A B} (heap : World -> gmap positive A) p (k : A -> M B) w :
  heap w !! p = None -> (deref heap p ≫= k) w = None.
Proof. intros E. unfold mbind, M_bind, bind, deref. by rewrite E. Qed.

(** A component of the world that does not look at the calls, the Java
    objects or the guards, and that no decoder update changes as long as the
    decoder keeps its stream. *)
Section Stable.
Context {X : Type} (proj : World -> X).
Hypothesis proj_decoder :
  forall w p dec x,
    decoders w !! p = Some dec ->
    fStream x = fStream dec ->
    proj (set_decoders (<[p := x]>) w) = proj w.
Hypothesis proj_calls : forall w f, proj (set_calls f w) = proj w.
Hypothesis proj_options : forall w f, proj (set_optionsObjs f w) = proj w.
Hypothesis proj_bitmaps : forall w f, proj (set_bitmapObjs f w) = proj w.
Hypothesis proj_guards : forall w f, proj (set_gAutoDecoderCancel f w) = proj w.

Ltac stable_steps :=
  repeat first
    [ apply preserves_ret
    | apply preserves_undefined
    | apply preserves_gets
    | apply preserves_deref
    | apply preserves_modify; intros ?;
      first [ apply proj_calls | apply proj_options | apply proj_bitmaps
            | apply proj_guards ]
    | apply preserves_bind; [ | intros ? ]
    | match goal with
      | |- preserves _ (match ?x with _ => _ end) => destruct x
      end ].

Lemma setDitherImage_stable p b : preserves proj (setDitherImage p b).
Proof.
  intros w a w' Hrun. destruct (decoders w !! p) as [dec|] eqn:E.
  - rewrite (setDitherImage_run _ _ _ _ E) in Hrun. injection Hrun as _ <-.
    rewrite proj_decoder with (dec := dec); [apply proj_calls | exact E | done].
  - unfold setDitherImage in Hrun. by rewrite bind_deref_None in Hrun.
Qed.

Lemma setPreferQualityOverSpeed_stable p b :
  preserves proj (setPreferQualityOverSpeed p b).
Proof.
  intros w a w' Hrun. destruct (decoders w !! p) as [dec|] eqn:E.
  - rewrite (setPreferQualityOverSpeed_run _ _ _ _ E) in Hrun. injection Hrun as _ <-.
    rewrite proj_decoder with (dec := dec); [apply proj_calls | exact E | done].
  - unfold setPreferQualityOverSpeed in Hrun. by rewrite bind_deref_None in Hrun.
Qed.

Lemma setRequireUnpremultipliedColors_stable p b :
  preserves proj (setRequireUnpremultipliedColors p b).
Proof.
  intros w a w' Hrun. destruct (decoders w !! p) as [dec|] eqn:E.
  - rewrite (setRequireUnpremultipliedColors_run _ _ _ _ E) in Hrun.
    injection Hrun as _ <-.
    rewrite proj_decoder with (dec := dec); [apply proj_calls | exact E | done].
  - unfold setRequireUnpremultipliedColors in Hrun.
    by rewrite bind_deref_None in Hrun.
Qed.

Lemma decodeRegion_stable h bm rect pref n :
  preserves proj (decodeRegion h bm rect pref n).
Proof.
  intros w a w' Hrun.
  destruct (regionDecoders w !! h) as [brd|] eqn:Eb.
  2:{ unfold decodeRegion in Hrun. by rewrite bind_deref_None in Hrun. }
  destruct (decoders w !! fDecoder brd) as [dec|] eqn:E.
  - rewrite (decodeRegion_run _ _ _ _ _ _ _ _ Eb E) in Hrun.
    injection Hrun as _ <-.
    rewrite proj_calls. by apply proj_decoder with (dec := dec).
  - unfold decodeRegion, setSampleSize in Hrun.
    erewrite bind_Some in Hrun by (apply deref_run, Eb).
    rewrite bind_assoc_run in Hrun. by rewrite bind_deref_None in Hrun.
Qed.

Lemma getStorageObjAndReset_stable p : preserves proj (getStorageObjAndReset p).
Proof.
  intros w a w' Hrun. destruct (decoders w !! p) as [dec|] eqn:E.
  - destruct (fAllocator dec) as [al|] eqn:Ha.
    + rewrite (getStorageObjAndReset_run _ _ _ _ E Ha) in Hrun.
      injection Hrun as _ <-.
      rewrite proj_decoder with (dec := dec); [apply proj_calls | exact E | done].
    + unfold getStorageObjAndReset, log in Hrun.
      erewrite bind_Some in Hrun by (apply deref_run, E).
      erewrite bind_Some in Hrun by apply modify_run.
      by rewrite Ha in Hrun.
  - unfold getStorageObjAndReset in Hrun. by rewrite bind_deref_None in Hrun.
Qed.

Lemma nativeDecodeRegion_stable h sx sy wd ht options :
  preserves proj (nativeDecodeRegion h sx sy wd ht options).
Proof.
  unfold nativeDecodeRegion.
  apply preserves_bind; [unfold getDecoder; stable_steps | intros decoder].
  apply preserves_bind;
    [unfold readOptions, GetField, SetField; stable_steps | intros l].
  apply preserves_bind; [apply setDitherImage_stable | intros _].
  apply preserves_bind; [apply setPreferQualityOverSpeed_stable | intros _].
  apply preserves_bind; [apply setRequireUnpremultipliedColors_stable | intros _].
  unfold with_AutoDecoderCancel, AutoDecoderCancel_ctor, AutoDecoderCancel_dtor.
  apply preserves_bind; [stable_steps | intros _].
  apply preserves_bind; [ | intros r; stable_steps ].
  apply preserves_bind; [unfold GetField; stable_steps | intros cancel].
  destruct cancel; [unfold nullObjectReturn; stable_steps|].
  apply preserves_bind; [unfold getSkBitmap; stable_steps | intros bm].
  apply preserves_bind; [apply decodeRegion_stable | intros [ok bm']].
  destruct ok; cbn [negb]; [|unfold nullObjectReturn; stable_steps].
  apply preserves_bind.
  { destruct options; [|stable_steps].
    unfold SetField, SkImageDecoder_getFormat, log. stable_steps. }
  intros _. destruct (tileBitmap l).
  - unfold notifyPixelsChanged, log. stable_steps.
  - apply preserves_bind; [apply getStorageObjAndReset_stable | intros storage].
    unfold createBitmap. stable_steps.
Qed.

End Stable.

Lemma decoders_dom_write w p dec x :
  decoders w !! p = Some dec ->
  fStream x = fStream dec ->
  dom (decoders (set_decoders (<[p := x]>) w)) = dom (decoders w).
Proof. intros E _. cbn. apply dom_insert_lookup_L. by eexists. Qed.

Lemma owned_stream_write d w p dec x :
  decoders w !! p = Some dec ->
  fStream x = fStream dec ->
  owned_stream d (set_decoders (<[p := x]>) w) = owned_stream d w.
Proof.
  intros E Hx. unfold owned_stream. cbn.
  destruct (decide (p = d)) as [->|Hne].
  - rewrite lookup_insert_eq, E. cbn. by rewrite Hx.
  - by rewrite lookup_insert_ne.
Qed.

(** X5: a decode call that returns, on whatever arguments, raises no
    exception and leaves the native heap in place: no stream, decoder or
    handle is created or destroyed, and every decoder keeps the stream it
    owns. *)
Theorem decode_leaves_native_heap h start_x start_y width height options w r w' :
  nativeDecodeRegion h start_x start_y width height options w = Some (r, w') ->
  pendingException w' = pendingException w
  /\ streams w' = streams w
  /\ regionDecoders w' = regionDecoders w
  /\ dom (decoders w') = dom (decoders w)
  /\ (forall d, owned_stream d w' = owned_stream d w).
Proof.
  intros Hrun. repeat split.
  - by eapply (nativeDecodeRegion_stable pendingException).
  - by eapply (nativeDecodeRegion_stable streams).
  - by eapply nativeDecodeRegion_preserves_regionDecoders.
  - eapply (nativeDecodeRegion_stable (fun w => dom (decoders w)));
      eauto using decoders_dom_write.
  - intros d. eapply (nativeDecodeRegion_stable (owned_stream d));
      eauto using owned_stream_write.
Qed.

Lemma decode_calls_stable {X} (proj : World -> X) w1 w2 :
  (forall w p dec x,
     decoders w !! p = Some dec -> fStream x = fStream dec ->
     proj (set_decoders (<[p := x]>) w) = proj w) ->
  (forall w f, proj (set_calls f w) = proj w) ->
  (forall w f, proj (set_optionsObjs f w) = proj w) ->
  (forall w f, proj (set_bitmapObjs f w) = proj w) ->
  (forall w f, proj (set_gAutoDecoderCancel f w) = proj w) ->
  decode_calls w1 w2 -> proj w2 = proj w1.
Proof.
  intros Hp1 Hp2 Hp3 Hp4 Hp5.
  induction 1 as [|w w1 w2 h sx sy wd ht options r Hrun _ IH]; [done|].
  rewrite IH. by eapply (nativeDecodeRegion_stable proj).
Qed.

(** X6: the life of a handle.  After construction and any number of decode
    calls, [nativeClean] returns and releases everything construction had
    allocated: the handle, its decoder and the stream, which the decoder
    still owned.  From then on the handle is dangling: the getters, a decode
    and a second [nativeClean] on it are undefined. *)
Theorem clean_releases_what_create_allocated w stream h w1 w2 :
  createBitmapRegionDecoder stream w = Some (Some h, w1) ->
  decode_calls w1 w2 ->
  exists w3,
    nativeClean h w2 = Some (tt, w3)
    /\ regionDecoders w3 = regionDecoders w
    /\ dom (decoders w3) = dom (decoders w)
    /\ streams w3 = delete stream (streams w)
    /\ pendingException w3 = pendingException w
    /\ nativeGetWidth h w3 = None
    /\ nativeGetHeight h w3 = None
    /\ nativeClean h w3 = None
    /\ (forall start_x start_y width height options,
          nativeDecodeRegion h start_x start_y width height options w3 = None).
Proof.
  intros Hcreate Hcalls.
  destruct (createBitmapRegionDecoder_inv _ _ _ _ Hcreate) as [s Hs].
  destruct (Factory s) as [d0|] eqn:HF.
  2:{ by rewrite (createBitmapRegionDecoder_unsupported _ _ _ Hs HF) in Hcreate. }
  destruct (buildTileIndex (prepared d0) s) as [[[impl width] height]|] eqn:HB.
  2:{ by rewrite (createBitmapRegionDecoder_index_failed _ _ _ _ Hs HF HB)
        in Hcreate. }
  rewrite (createBitmapRegionDecoder_ok _ _ _ _ _ _ _ Hs HF HB) in Hcreate.
  injection Hcreate as <- <-.
  set (h := fresh (dom (regionDecoders w))) in *.
  set (d := fresh (dom (decoders w))) in *.
  set (brd := {| fDecoder := d; fWidth := width; fHeight := height |}) in *.
  assert (regionDecoders w !! h = None) as Hh by apply fresh_lookup.
  assert (decoders w !! d = None) as Hd by apply fresh_lookup.
  assert (regionDecoders w2 = <[h := brd]> (regionDecoders w)) as Hrd.
  { by rewrite (decode_calls_regionDecoders _ _ Hcalls). }
  assert (streams w2 = streams w) as Hst.
  { by rewrite (decode_calls_stable streams _ _
                  ltac:(done) ltac:(done) ltac:(done) ltac:(done) ltac:(done) Hcalls). }
  assert (pendingException w2 = pendingException w) as Hex.
  { by rewrite (decode_calls_stable pendingException _ _
                  ltac:(done) ltac:(done) ltac:(done) ltac:(done) ltac:(done) Hcalls). }
  assert (dom (decoders w2) = {[d]} ∪ dom (decoders w)) as Hdom.
  { rewrite (decode_calls_stable (fun w => dom (decoders w)) _ _
               decoders_dom_write
               ltac:(done) ltac:(done) ltac:(done) ltac:(done) Hcalls).
    cbn -[fresh]. apply dom_insert_L. }
  assert (owned_stream d w2 = Some (Some stream)) as Hown.
  { rewrite (decode_calls_stable (owned_stream d) _ _
               (owned_stream_write d)
               ltac:(done) ltac:(done) ltac:(done) ltac:(done) Hcalls).
    unfold owned_stream. cbn -[fresh]. by rewrite lookup_insert_eq. }
  unfold owned_stream in Hown.
  destruct (decoders w2 !! d) as [dec2|] eqn:Hd2; [|done].
  cbn in Hown. injection Hown as Hown.
  assert (regionDecoders w2 !! h = Some brd) as Hh2.
  { rewrite Hrd. apply lookup_insert_eq. }
  eexists. split.
  { unfold nativeClean, delete_SkBitmapRegionDecoder, delete_decoder.
    mstep @deref_run. mstep @deref_run. mstep modify_run.
    rewrite Hown. cbv beta iota. mstep modify_run. reflexivity. }
  assert (delete h (regionDecoders w2) !! h = None) as Hgone
    by apply lookup_delete_eq.
  cbn [regionDecoders decoders streams pendingException
       set_regionDecoders set_streams set_decoders].
  repeat split.
  - rewrite Hrd, delete_insert_eq. by apply delete_id.
  - rewrite dom_delete_L, Hdom. change (fDecoder brd) with d.
    apply not_elem_of_dom in Hd.
    generalize (dom (decoders w)) Hd. generalize d. clear. intros d D HD.
    apply set_eq. intros x.
    rewrite elem_of_difference, elem_of_union, elem_of_singleton.
    split.
    + intros [[->|Hx] Hne]; [by destruct Hne | done].
    + intros Hx. split; [by right | by intros ->].
  - by rewrite Hst.
  - done.
  - unfold nativeGetWidth, getWidth. by apply bind_deref_None.
  - unfold nativeGetHeight, getHeight. by apply bind_deref_None.
  - unfold nativeClean, delete_SkBitmapRegionDecoder. by apply bind_deref_None.
  - intros. unfold nativeDecodeRegion, getDecoder.
    rewrite bind_assoc_run. by apply bind_deref_None.
Qed.

(** ** What a decode call does with the bundle *)

(** X7: with a bundle, the subset decode runs with the bundle's settings,
    whatever earlier calls left in the decoder: the sample size, the three
    flags (unpremultiplied colors being required exactly when the bundle
    does not ask for premultiplied output), the color type of the bundle's
    config and the bundle's reuse bitmap as target.  Nothing else of the
    decoder is changed on the way: allocator, stream and private state are
    those it had before the call. *)
Theorem bundle_settings_reach_backend
    w h start_x start_y width height o opts r w' new d self bm rect pref :
  live_handle w h = true ->
  valid_options w (Some o) = true ->
  optionsObjs w !! o = Some opts ->
  nativeDecodeRegion h start_x start_y width height (Some o) w = Some (r, w') ->
  calls w' = calls w ++ new ->
  CallDecodeSubset d self bm rect pref ∈ new ->
  exists brd dec,
    regionDecoders w !! h = Some brd
    /\ decoders w !! fDecoder brd = Some dec
    /\ d = fDecoder brd
    /\ fSampleSize self = gOptions_sampleSize opts
    /\ fDitherImage self = gOptions_dither opts
    /\ fPreferQualityOverSpeed self = gOptions_preferQualityOverSpeed opts
    /\ fRequireUnpremultipliedColors self = negb (gOptions_premultiplied opts)
    /\ pref = getNativeBitmapColorType (gOptions_config opts)
    /\ target_bitmap w (gOptions_bitmap opts) = Some bm
    /\ fAllocator self = fAllocator dec
    /\ fStream self = fStream dec
    /\ fImpl self = fImpl dec.
Proof.
  intros Hl Hv Ho Hrun Hcalls Hin.
  pose proof (nativeDecodeRegion_inv _ _ _ _ _ _ _ _ _ Hl Hv Hrun) as Hp.
  destruct (decode_path_subset_call _ _ _ _ _ _ _ _ _ _ _ _ _ _ _ Hp Hcalls Hin)
    as (brd & dec & Hb & Hd & -> & -> & Ht & _ & -> & _).
  cbn [bundle mbind option_bind] in *. rewrite Ho in *.
  exists brd, dec. by repeat split.
Qed.

(** What a path does to the Java heap: one function rewrites the bundle of
    the call, and it only writes output fields; the Java bitmaps that
    existed are as they were. *)
Lemma decode_path_java w h sx sy wd ht options res w' :
  decode_path w h sx sy wd ht options res w' ->
  (exists f,
     optionsObjs w' = optionsObjs (update_bundle options f w)
     /\ forall o,
          gOptions_sampleSize (f o) = gOptions_sampleSize o
          /\ gOptions_config (f o) = gOptions_config o
          /\ gOptions_dither (f o) = gOptions_dither o
          /\ gOptions_preferQualityOverSpeed (f o) = gOptions_preferQualityOverSpeed o
          /\ gOptions_bitmap (f o) = gOptions_bitmap o
          /\ gOptions_premultiplied (f o) = gOptions_premultiplied o
          /\ gOptions_mCancel (f o) = gOptions_mCancel o)
  /\ (forall b jb, bitmapObjs w !! b = Some jb -> bitmapObjs w' !! b = Some jb).
Proof.
  intros Hp.
  destruct Hp as [ brd dec o opts Hb Hd -> Ho Hc l0
                 | brd dec bm0 Hb Hd l0 d0 self0 rect0 r0 Hc Ht Hr
                 | brd dec o opts tb bm0 Hb Hd -> Ho Hc Htb Ht l0 d0 self0 rect0 r0 Hr
                 | brd dec a Hb Hd Ha l0 d0 self0 rect0 r0 jb Hc Ht Hr ].
  - split; [by exists reset_outputs|]. intros b jb Hjb. by read_world.
  - split; [by exists reset_outputs|]. intros b jb Hjb. by read_world.
  - split; [by exists (record_output r0 self0)|]. intros b jb Hjb. by read_world.
  - split; [by exists (record_output r0 self0)|]. intros b jb' Hjb. read_world.
    rewrite lookup_insert_ne; [done|]. subst jb. intros Heq.
    rewrite <- Heq, fresh_lookup in Hjb. discriminate.
Qed.


(** ** Well-formedness is an invariant *)

(** What a path does to the native decoders: the one behind the handle is
    replaced, and it keeps an allocator if it had one. *)
Lemma decode_path_heap w h sx sy wd ht options res w' :
  decode_path w h sx sy wd ht options res w' ->
  exists brd dec dec',
    regionDecoders w !! h = Some brd
    /\ decoders w !! fDecoder brd = Some dec
    /\ regionDecoders w' = regionDecoders w
    /\ decoders w' = <[fDecoder brd := dec']> (decoders w)
    /\ (is_Some (fAllocator dec) -> is_Some (fAllocator dec')).
Proof.
  intros Hp.
  destruct Hp as [ brd dec o opts Hb Hd -> Ho Hc l0
                 | brd dec bm0 Hb Hd l0 d0 self0 rect0 r0 Hc Ht Hr
                 | brd dec o opts tb bm0 Hb Hd -> Ho Hc Htb Ht l0 d0 self0 rect0 r0 Hr
                 | brd dec a Hb Hd Ha l0 d0 self0 rect0 r0 jb Hc Ht Hr ];
    exists brd, dec; eexists; (split; [exact Hb|]); (split; [exact Hd|]);
    (split; [by read_world|]); (split; [by read_world|]).
  - done.
  - cbn. intros [a ->]. by eexists.
  - cbn. intros [a ->]. by eexists.
  - cbn. by eexists.
Qed.

Lemma live_handle_after w w' d dec dec' h :
  regionDecoders w' = regionDecoders w ->
  decoders w !! d = Some dec ->
  decoders w' = <[d := dec']> (decoders w) ->
  (is_Some (fAllocator dec) -> is_Some (fAllocator dec')) ->
  live_handle w h = true ->
  live_handle w' h = true.
Proof.
  intros Hrd Hd Hds Ha. unfold live_handle. rewrite Hrd, Hds.
  destruct (regionDecoders w !! h) as [brd|]; [|done].
  destruct (decide (d = fDecoder brd)) as [<-|Hne].
  - rewrite lookup_insert_eq, Hd. intros Hl.
    apply bool_decide_eq_true. apply bool_decide_eq_true in Hl. auto.
  - by rewrite lookup_insert_ne.
Qed.

(** Options references stay valid when a call only rewrites output fields
    of one bundle and keeps the Java bitmaps that exist. *)
Lemma valid_options_grow w w' options f options' :
  (forall o, gOptions_bitmap (f o) = gOptions_bitmap o) ->
  optionsObjs w' = optionsObjs (update_bundle options f w) ->
  (forall b jb, bitmapObjs w !! b = Some jb -> bitmapObjs w' !! b = Some jb) ->
  valid_options w options' = true ->
  valid_options w' options' = true.
Proof.
  intros Hf Ho Hbm. destruct options' as [o'|]; [|done].
  unfold valid_options. rewrite Ho.
  assert (forall b, valid_bitmap w b = true -> valid_bitmap w' b = true) as Hvb.
  { intros [tb|]; [|done]. cbn.
    destruct (bitmapObjs w !! tb) as [jb|] eqn:Hjb; [|done].
    by rewrite (Hbm _ _ Hjb). }
  destruct options as [o|]; cbn.
  - rewrite lookup_alter.
    destruct (decide (o = o')) as [->|].
    + destruct (optionsObjs w !! o') as [opts|]; [|done]. cbn.
      rewrite Hf. apply Hvb.
    + destruct (optionsObjs w !! o') as [opts|]; [|done]. apply Hvb.
  - destruct (optionsObjs w !! o') as [opts|]; [|done]. apply Hvb.
Qed.

Lemma nativeDecodeRegion_well_formed w h sx sy wd ht options r w' :
  live_handle w h = true ->
  valid_options w options = true ->
  nativeDecodeRegion h sx sy wd ht options w = Some (r, w') ->
  (forall h', live_handle w h' = true -> live_handle w' h' = true)
  /\ (forall o', valid_options w o' = true -> valid_options w' o' = true).
Proof.
  intros Hl Hv Hrun.
  pose proof (nativeDecodeRegion_inv _ _ _ _ _ _ _ _ _ Hl Hv Hrun) as Hp.
  destruct (decode_path_heap _ _ _ _ _ _ _ _ _ Hp)
    as (brd & dec & dec' & Hb & Hd & Hrd & Hds & Ha).
  destruct (decode_path_java _ _ _ _ _ _ _ _ _ Hp) as ((f & Hopt & Hf) & Hbm).
  split.
  - intros h'. by eapply live_handle_after.
  - intros o'. eapply valid_options_grow; [|exact Hopt|exact Hbm].
    intros o. by destruct (Hf o) as (_ & _ & _ & _ & ? & _).
Qed.

(** X9: any list of decode requests whose handles are live and whose
    options references are valid when the first one starts runs to the end:
    no request in the list can invalidate a later one, whatever the backend
    answers.  There is one result per request, and every handle and options
    reference that was usable before the list is usable after it. *)
Theorem well_formed_requests_all_return rs w :
  Forall (fun rq => live_handle w (rq_handle rq) = true
                    /\ valid_options w (rq_options rq) = true) rs ->
  exists bs w',
    decode_all rs w = Some (bs, w')
    /\ List.length bs = List.length rs
    /\ (forall h, live_handle w h = true -> live_handle w' h = true)
    /\ (forall o, valid_options w o = true -> valid_options w' o = true).
Proof.
  revert w. induction rs as [|rq rs IH]; intros w Hrs.
  - by exists [], w.
  - apply Forall_cons in Hrs as [[Hl Hv] Hrs].
    destruct (nativeDecodeRegion_path w (rq_handle rq) (rq_x rq) (rq_y rq)
                (rq_width rq) (rq_height rq) (rq_options rq) Hl Hv)
      as (b & w1 & Hrun & _).
    destruct (nativeDecodeRegion_well_formed _ _ _ _ _ _ _ _ _ Hl Hv Hrun)
      as [Hlive Hvalid].
    destruct (IH w1) as (bs & w2 & Hrest & Hlen & Hlive2 & Hvalid2).
    { eapply Forall_impl; [exact Hrs|]. intros rq' [? ?]. auto. }
    exists (b :: bs), w2. split; [|split; [|split]].
    + cbn [decode_all].
      rewrite (bind_Some _ _ _ _ _ Hrun), (bind_Some _ _ _ _ _ Hrest).
      reflexivity.
    + cbn. by rewrite Hlen.
    + auto.
    + auto.
Qed.

(** ** Two handles *)

(** What a successful construction has added to the native heap. *)
Lemma createBitmapRegionDecoder_handle w stream h w1 :
  createBitmapRegionDecoder stream w = Some (Some h, w1) ->
  exists brd dec,
    h = fresh (dom (regionDecoders w))
    /\ fDecoder brd = fresh (dom (decoders w))
    /\ fStream dec = Some stream
    /\ regionDecoders w1 = <[h := brd]> (regionDecoders w)
    /\ decoders w1 = <[fDecoder brd := dec]> (decoders w)
    /\ streams w1 = streams w
    /\ is_Some (streams w !! stream).
Proof.
  intros Hcreate.
  destruct (createBitmapRegionDecoder_inv _ _ _ _ Hcreate) as [s Hs].
  destruct (Factory s) as [d0|] eqn:HF.
  2:{ by rewrite (createBitmapRegionDecoder_unsupported _ _ _ Hs HF) in Hcreate. }
  destruct (buildTileIndex (prepared d0) s) as [[[impl width] height]|] eqn:HB.
  2:{ by rewrite (createBitmapRegionDecoder_index_failed _ _ _ _ Hs HF HB)
        in Hcreate. }
  rewrite (createBitmapRegionDecoder_ok _ _ _ _ _ _ _ Hs HF HB) in Hcreate.
  injection Hcreate as <- <-.
  eexists {| fDecoder := _ |}, _. cbn -[fresh].
  repeat split; try reflexivity. by eexists.
Qed.

(** [delete brd] on a handle whose decoder is allocated. *)
Lemma nativeClean_run w h brd dec :
  regionDecoders w !! h = Some brd ->
  decoders w !! fDecoder brd = Some dec ->
  nativeClean h w =
    Some (tt,
          set_regionDecoders (delete h)
            (match fStream dec with
             | Some s => set_streams (delete s)
             | None => fun w => w
             end (set_decoders (delete (fDecoder brd)) w))).
Proof.
  intros Hb Hd.
  unfold nativeClean, delete_SkBitmapRegionDecoder, delete_decoder.
  mstep @deref_run. mstep @deref_run. mstep modify_run.
  destruct (fStream dec); cbv beta iota.
  - mstep modify_run. reflexivity.
  - mstep @ret_run. reflexivity.
Qed.

(** X10: handles built on different streams do not share anything.  After
    two constructions and any number of decode calls, cleaning the first
    handle leaves the second with its dimensions, its decoder and its
    stream; cleaning the second as well returns the native heap to what it
    was before the first construction, less the two streams. *)
Theorem handles_released_independently w s1 s2 h1 h2 w1 w2 w3 :
  createBitmapRegionDecoder s1 w = Some (Some h1, w1) ->
  createBitmapRegionDecoder s2 w1 = Some (Some h2, w2) ->
  s1 <> s2 ->
  decode_calls w2 w3 ->
  h1 <> h2
  /\ exists w4,
       nativeClean h1 w3 = Some (tt, w4)
       /\ regionDecoders w4 !! h2 = regionDecoders w2 !! h2
       /\ (exists brd2,
             regionDecoders w4 !! h2 = Some brd2
             /\ owned_stream (fDecoder brd2) w4 = Some (Some s2))
       /\ streams w4 !! s2 = streams w !! s2
       /\ is_Some (streams w !! s2)
       /\ exists w5,
            nativeClean h2 w4 = Some (tt, w5)
            /\ regionDecoders w5 = regionDecoders w
            /\ dom (decoders w5) = dom (decoders w)
            /\ streams w5 = delete s2 (delete s1 (streams w)).
Proof.
  intros Hc1 Hc2 Hs Hcalls.
  destruct (createBitmapRegionDecoder_handle _ _ _ _ Hc1)
    as (brd1 & dec1 & Hh1 & Hd1 & Hown1 & Hrd1 & Hds1 & Hst1 & _).
  destruct (createBitmapRegionDecoder_handle _ _ _ _ Hc2)
    as (brd2 & dec2 & Hh2 & Hd2 & Hown2 & Hrd2 & Hds2 & Hst2 & Hs2).
  rewrite Hst1 in Hs2.
  assert (regionDecoders w !! h1 = None) as Hf1.
  { rewrite Hh1. apply fresh_lookup. }
  assert (regionDecoders w1 !! h2 = None) as Hf2.
  { rewrite Hh2. apply fresh_lookup. }
  assert (decoders w !! fDecoder brd1 = None) as Hg1.
  { rewrite Hd1. apply fresh_lookup. }
  assert (decoders w1 !! fDecoder brd2 = None) as Hg2.
  { rewrite Hd2. apply fresh_lookup. }
  assert (h1 <> h2) as Hh.
  { intros <-. by rewrite Hrd1, lookup_insert_eq in Hf2. }
  assert (fDecoder brd1 <> fDecoder brd2) as Hd.
  { intros Heq. by rewrite <- Heq, Hds1, lookup_insert_eq in Hg2. }
  rewrite Hrd1 in Hf2. rewrite lookup_insert_ne in Hf2 by done.
  rewrite Hds1 in Hg2. rewrite lookup_insert_ne in Hg2 by done.
  assert (regionDecoders w3 = regionDecoders w2) as Hrd3
    by apply (decode_calls_regionDecoders _ _ Hcalls).
  assert (streams w3 = streams w) as Hst3.
  { rewrite (decode_calls_stable streams _ _
               ltac:(done) ltac:(done) ltac:(done) ltac:(done) ltac:(done) Hcalls).
    by rewrite Hst2. }
  assert (dom (decoders w3) = dom (decoders w2)) as Hdom3.
  { apply (decode_calls_stable (fun w => dom (decoders w)) _ _
             decoders_dom_write
             ltac:(done) ltac:(done) ltac:(done) ltac:(done) Hcalls). }
  assert (forall d, owned_stream d w3 = owned_stream d w2) as Hown3.
  { intros d. apply (decode_calls_stable (owned_stream d) _ _
             (owned_stream_write d)
             ltac:(done) ltac:(done) ltac:(done) ltac:(done) Hcalls). }
  assert (owned_stream (fDecoder brd1) w2 = Some (Some s1)) as Ho1.
  { unfold owned_stream. rewrite Hds2, lookup_insert_ne by done.
    by rewrite Hds1, lookup_insert_eq; cbn; rewrite Hown1. }
  assert (owned_stream (fDecoder brd2) w2 = Some (Some s2)) as Ho2.
  { unfold owned_stream. rewrite Hds2, lookup_insert_eq. cbn. by rewrite Hown2. }
  assert (regionDecoders w3 !! h1 = Some brd1) as Hb1.
  { rewrite Hrd3, Hrd2, lookup_insert_ne by done.
    by rewrite Hrd1, lookup_insert_eq. }
  assert (regionDecoders w3 !! h2 = Some brd2) as Hb2.
  { by rewrite Hrd3, Hrd2, lookup_insert_eq. }
  pose proof (Hown3 (fDecoder brd1)) as Ho13. rewrite Ho1 in Ho13.
  pose proof (Hown3 (fDecoder brd2)) as Ho23. rewrite Ho2 in Ho23.
  unfold owned_stream in Ho13, Ho23.
  destruct (decoders w3 !! fDecoder brd1) as [dec13|] eqn:Hdec13; [|done].
  destruct (decoders w3 !! fDecoder brd2) as [dec23|] eqn:Hdec23; [|done].
  cbn in Ho13, Ho23. injection Ho13 as Ho13. injection Ho23 as Ho23.
  split; [exact Hh|].
  eexists. split.
  { rewrite (nativeClean_run _ _ _ _ Hb1 Hdec13), Ho13. reflexivity. }
  cbn [regionDecoders decoders streams
       set_regionDecoders set_streams set_decoders].
  assert (delete h1 (regionDecoders w3) !! h2 = Some brd2) as Hb24.
  { by rewrite lookup_delete_ne. }
  assert (delete (fDecoder brd1) (decoders w3) !! fDecoder brd2 = Some dec23)
    as Hdec24.
  { by rewrite lookup_delete_ne. }
  split; [by rewrite Hb24, <- Hrd3|].
  split.
  { exists brd2. split; [done|]. unfold owned_stream.
    cbn [decoders set_regionDecoders set_streams set_decoders].
    rewrite Hdec24. cbn. by rewrite Ho23. }
  split; [by rewrite Hst3, lookup_delete_ne|].
  split; [done|].
  eexists. split.
  { erewrite nativeClean_run; [|exact Hb24|exact Hdec24].
    rewrite Ho23. reflexivity. }
  cbn [regionDecoders decoders streams
       set_regionDecoders set_streams set_decoders].
  repeat split.
  - rewrite Hrd3, Hrd2, Hrd1. apply map_eq. intros i.
    destruct (decide (i = h2)) as [->|Hi2].
    { by rewrite lookup_delete_eq. }
    rewrite lookup_delete_ne by done.
    destruct (decide (i = h1)) as [->|Hi1].
    { by rewrite lookup_delete_eq. }
    rewrite lookup_delete_ne by done.
    by rewrite !lookup_insert_ne.
  - rewrite !dom_delete_L, Hdom3, Hds2, Hds1, !dom_insert_L.
    apply not_elem_of_dom in Hg1, Hg2.
    generalize (dom (decoders w)) Hg1 Hg2 Hd.
    generalize (fDecoder brd1) (fDecoder brd2). clear.
    intros d1 d2 D HD1 HD2 Hne.
    apply set_eq. intros x.
    rewrite !elem_of_difference, !elem_of_union, !elem_of_singleton.
    split.
    + intros [[[->|[->|Hx]] Hn1] Hn2]; done.
    + intros Hx. split; [split|]; [by right; right| by intros ->| by intros ->].
  - by rewrite Hst3.
Qed.

(** ** The result and the allocator's storage *)

(** X11: which Java bitmap a decode call returns.  A call that returns null,
    or that has a reuse bitmap, creates no Java bitmap, and with a reuse
    bitmap a non-null result is that bitmap.  Otherwise the result is
    exactly one new Java bitmap, around the storage the subset decode left
    in the decoder's allocator; the allocator has been reset and holds no
    storage when the call returns, so the same storage is not handed out
    twice. *)
Theorem storage_handed_over_once w h start_x start_y width height options r w' :
  live_handle w h = true ->
  valid_options w options = true ->
  nativeDecodeRegion h start_x start_y width height options w = Some (r, w') ->
  match r, bundle w options ≫= gOptions_bitmap with
  | None, _ => bitmapObjs w' = bitmapObjs w
  | Some b, Some tb => b = tb /\ bitmapObjs w' = bitmapObjs w
  | Some b, None =>
      exists brd dec' jb self rect pref new,
        bitmapObjs w !! b = None
        /\ bitmapObjs w' = <[b := jb]> (bitmapObjs w)
        /\ regionDecoders w !! h = Some brd
        /\ calls w' = calls w ++ new
        /\ CallDecodeSubset (fDecoder brd) self emptyBitmap rect pref ∈ new
        /\ jbNative jb = outStorage (decodeSubset self emptyBitmap rect pref)
        /\ decoders w' !! fDecoder brd = Some dec'
        /\ fAllocator dec' = Some {| fStorageObj := None |}
  end.
Proof.
  intros Hl Hv Hrun.
  pose proof (nativeDecodeRegion_inv _ _ _ _ _ _ _ _ _ Hl Hv Hrun) as Hp.
  destruct Hp as [ brd dec o opts Hb Hd -> Ho Hc l0
                 | brd dec bm0 Hb Hd l0 d0 self0 rect0 r0 Hc Ht Hr
                 | brd dec o opts tb bm0 Hb Hd -> Ho Hc Htb Ht l0 d0 self0 rect0 r0 Hr
                 | brd dec a Hb Hd Ha l0 d0 self0 rect0 r0 jb Hc Ht Hr ].
  - by read_world.
  - by read_world.
  - assert (bundle w (Some o) ≫= gOptions_bitmap = Some tb) as ->.
    { cbn. rewrite Ho. exact Htb. }
    split; [done|]. by read_world.
  - assert (bundle w options ≫= gOptions_bitmap = None) as ->.
    { subst l0. by destruct (bundle w options). }
    exists brd. eexists. eexists. exists self0, rect0, (prefColorType l0).
    eexists.
    split; [apply fresh_lookup|].
    split; [by read_world|].
    split; [exact Hb|].
    split; [by read_world|].
    split.
    { unfold decode_call_pair. rewrite !elem_of_app, !elem_of_cons. tauto. }
    split; [reflexivity|].
    split; [read_world; apply lookup_insert_eq|].
    reflexivity.
Qed.

End Proofs.

(** * The theorems at work on the concrete backend *)

Import Example.

(** Opening the 100 x 100 image gives handle 1. *)
Lemma create_handle_witness :
  streams streamWorld !! 1%positive = Some goodStream
  /\ exists w',
       createBitmapRegionDecoder 1%positive streamWorld = Some (Some 1%positive, w')
       /\ live_handle w' 1%positive = true
       /\ pendingException w' = None.
Proof.
  split; [reflexivity|].
  destruct (create_handle_or_distinct_error streamWorld 1%positive goodStream eq_refl)
    as (r & w' & Hrun & h & d & -> & _ & _ & _ & _ & Hlive & _ & Hexc).
  exists w'. pose proof Hrun as Hh. vm_compute in Hh. injection Hh as _ <-.
  by repeat split.
Defined.

(** A decode with the cancelled bundle returns null after the three
    setters. *)
Lemma cancelled_call_witness :
  regionDecoders openedWorld !! 1%positive
    = Some {| fDecoder := 1%positive; fWidth := 100; fHeight := 100 |}
  /\ decoders openedWorld !! 1%positive = Some openedDecoder
  /\ optionsObjs openedWorld !! 2%positive = Some (with_mCancel true freshOptions)
  /\ gOptions_mCancel (with_mCancel true freshOptions) = true
  /\ exists w',
       nativeDecodeRegion 1%positive 0 0 50 50 (Some 2%positive) openedWorld
         = Some (None, w')
       /\ calls w' = [CallSetDitherImage 1%positive false;
                      CallSetPreferQualityOverSpeed 1%positive false;
                      CallSetRequireUnpremultipliedColors 1%positive false].
Proof.
  repeat (split; [reflexivity|]).
  destruct (cancelled_call_skips_decode openedWorld 1%positive 0 0 50 50 2%positive
              (with_mCancel true freshOptions)
              {| fDecoder := 1%positive; fWidth := 100; fHeight := 100 |}
              openedDecoder eq_refl eq_refl eq_refl eq_refl)
    as (w' & Hrun & Hcalls & _).
  exists w'. split; [exact Hrun | exact Hcalls].
Defined.

(** C2, as stated, fails: in [openedWorld] the bundle 2 has its cancel flag
    set, and the call with it returns null, yet it has made three calls on
    the backend and has turned the decoder's dither setting from true to
    false.  So it is not the case that the call leaves the backend's calls
    and state as they were. *)
Lemma cancelled_call_touches_backend :
  gOptions_mCancel <$> optionsObjs openedWorld !! 2%positive = Some true
  /\ (exists w',
        nativeDecodeRegion 1%positive 0 0 50 50 (Some 2%positive) openedWorld
          = Some (None, w')
        /\ calls openedWorld = []
        /\ calls w' = [CallSetDitherImage 1%positive false;
                       CallSetPreferQualityOverSpeed 1%positive false;
                       CallSetRequireUnpremultipliedColors 1%positive false]
        /\ fDitherImage <$> decoders openedWorld !! 1%positive = Some true
        /\ fDitherImage <$> decoders w' !! 1%positive = Some false)
  /\ ~ (exists w',
          nativeDecodeRegion 1%positive 0 0 50 50 (Some 2%positive) openedWorld
            = Some (None, w')
          /\ calls w' = calls openedWorld
          /\ decoders w' = decoders openedWorld).
Proof.
  split; [reflexivity|]. split.
  - exists cancelledWorld. by vm_compute.
  - intros (w' & Hrun & Hcalls & _).
    vm_compute in Hrun. injection Hrun as <-. vm_compute in Hcalls. discriminate.
Qed.

(** The dimensions of the opened image are still 100 x 100 after a
    decode. *)
Lemma dimensions_witness :
  createBitmapRegionDecoder 1%positive streamWorld
    = Some (Some 1%positive, createdWorld)
  /\ decode_calls createdWorld decodedWorld
  /\ nativeGetWidth 1%positive decodedWorld = Some (100, decodedWorld)
  /\ nativeGetHeight 1%positive decodedWorld = Some (100, decodedWorld).
Proof.
  assert (createBitmapRegionDecoder 1%positive streamWorld
            = Some (Some 1%positive, createdWorld)) as Hcreate
    by (vm_compute; reflexivity).
  assert (decode_calls createdWorld decodedWorld) as Hcalls.
  { apply (decode_calls_step createdWorld decodedWorld decodedWorld
             1%positive 0 0 50 50 None (Some 1%positive));
      [vm_compute; reflexivity | apply decode_calls_refl]. }
  split; [exact Hcreate|]. split; [exact Hcalls|].
  destruct (dimensions_fixed_at_construction _ _ _ _ _ Hcreate Hcalls)
    as (s & d0 & impl & wd & ht & Hs & HF & HB & HW & HH).
  vm_compute in Hs. injection Hs as <-.
  vm_compute in HF. injection HF as <-.
  vm_compute in HB. injection HB as _ <- <-.
  by split.
Defined.

(** A region that sticks out of the image makes the toy backend refuse; the
    handle can be used again. *)
Lemma decode_failure_witness :
  live_handle openedWorld 1%positive = true
  /\ valid_options openedWorld None = true
  /\ nativeDecodeRegion 1%positive (-5) 90 200 20 None openedWorld
       = Some (None, failedWorld)
  /\ calls failedWorld = calls openedWorld ++ calls failedWorld
  /\ CallDecodeSubset 1%positive defaultDecoder emptyBitmap
       (region_of (-5) 90 200 20) Unknown ∈ calls failedWorld
  /\ decoded (decodeSubset defaultDecoder emptyBitmap
                (region_of (-5) 90 200 20) Unknown) = false
  /\ live_handle failedWorld 1%positive = true
  /\ exists r' w'',
       nativeDecodeRegion 1%positive 0 0 50 50 None failedWorld = Some (r', w'').
Proof.
  assert (CallDecodeSubset 1%positive defaultDecoder emptyBitmap
            (region_of (-5) 90 200 20) Unknown ∈ calls failedWorld) as Hin.
  { assert (calls failedWorld =
              [CallSetDitherImage 1%positive true;
               CallSetPreferQualityOverSpeed 1%positive false;
               CallSetRequireUnpremultipliedColors 1%positive false;
               CallSetSampleSize 1%positive 1;
               CallDecodeSubset 1%positive defaultDecoder emptyBitmap
                 (region_of (-5) 90 200 20) Unknown]) as ->
      by (vm_compute; reflexivity).
    do 4 (apply elem_of_cons; right). apply elem_of_cons. by left. }
  assert (nativeDecodeRegion 1%positive (-5) 90 200 20 None openedWorld
            = Some (None, failedWorld)) as Hrun by (vm_compute; reflexivity).
  destruct (decode_failure_uniform_handle_reusable openedWorld 1%positive
              (-5) 90 200 20 None None failedWorld (calls failedWorld)
              1%positive defaultDecoder emptyBitmap (region_of (-5) 90 200 20)
              Unknown eq_refl eq_refl Hrun eq_refl Hin eq_refl)
    as (_ & _ & _ & Hlive & _ & Hnext).
  repeat (split; [done|]).
  exact (Hnext 0 0 50 50 None eq_refl).
Defined.

(** Decoding the whole image into the reuse bitmap returns that bitmap and
    records 100 x 100 and the MIME type in the bundle. *)
Lemma options_written_back_witness :
  live_handle openedWorld 1%positive = true
  /\ valid_options openedWorld (Some 3%positive) = true
  /\ nativeDecodeRegion 1%positive 0 0 100 100 (Some 3%positive) openedWorld
       = Some (Some 1%positive, reusedWorld)
  /\ exists opts',
       optionsObjs reusedWorld !! 3%positive = Some opts'
       /\ gOptions_width opts' = 100
       /\ gOptions_height opts' = 100
       /\ gOptions_mime opts' = Some "image/jpeg"%string
       /\ gOptions_bitmap opts' = Some 1%positive.
Proof.
  assert (nativeDecodeRegion 1%positive 0 0 100 100 (Some 3%positive) openedWorld
            = Some (Some 1%positive, reusedWorld)) as Hrun
    by (vm_compute; reflexivity).
  repeat (split; [done|]).
  destruct (options_written_back openedWorld 1%positive 0 0 100 100 3%positive
              1%positive reusedWorld eq_refl eq_refl Hrun)
    as (d & self & bm & rect & pref & new & opts' & _ & _ & _ & Hopts & _).
  exists opts'. split; [exact Hopts|].
  vm_compute in Hopts. by injection Hopts as <-.
Defined.

(** Without options the toy backend is called with the defaults. *)
Lemma defaults_witness :
  live_handle openedWorld 1%positive = true
  /\ regionDecoders openedWorld !! 1%positive
       = Some {| fDecoder := 1%positive; fWidth := 100; fHeight := 100 |}
  /\ exists r w' self rest,
       nativeDecodeRegion 1%positive 0 0 50 50 None openedWorld = Some (r, w')
       /\ calls w' =
            [CallSetDitherImage 1%positive true;
             CallSetPreferQualityOverSpeed 1%positive false;
             CallSetRequireUnpremultipliedColors 1%positive false;
             CallSetSampleSize 1%positive 1;
             CallDecodeSubset 1%positive self emptyBitmap
               (region_of 0 0 50 50) Unknown] ++ rest
       /\ fSampleSize self = 1
       /\ fDitherImage self = true.
Proof.
  repeat (split; [reflexivity|]).
  destruct (defaults_without_options openedWorld 1%positive 0 0 50 50
              {| fDecoder := 1%positive; fWidth := 100; fHeight := 100 |}
              eq_refl eq_refl)
    as (r & w' & self & rest & Hrun & Hcalls & Hs & Hd & _).
  exists r, w', self, rest. by repeat split.
Defined.

(** A region that starts left of the image and ends below it reaches the
    backend as it is. *)
Lemma region_witness :
  live_handle openedWorld 1%positive = true
  /\ valid_options openedWorld None = true
  /\ exists r w' new,
       nativeDecodeRegion 1%positive (-5) 90 200 20 None openedWorld = Some (r, w')
       /\ calls w' = calls openedWorld ++ new
       /\ exists d self bm pref,
            CallDecodeSubset d self bm
              {| fLeft := -5; fTop := 90; fRight := 195; fBottom := 110 |} pref
              ∈ new.
Proof.
  repeat (split; [reflexivity|]).
  destruct (region_forwarded_unclamped openedWorld 1%positive (-5) 90 200 20 None
              eq_refl eq_refl)
    as (r & w' & new & Hrun & Hcalls & Hsome & _).
  exists r, w', new. split; [exact Hrun|]. split; [exact Hcalls|].
  exact (Hsome eq_refl).
Defined.

(** A decode into fresh storage with a bundle that asks for premultiplied
    output creates bitmap 2 with the premultiplied flag. *)
Lemma fresh_bitmap_witness :
  kBitmapCreateFlag_Premultiplied <> 0
  /\ live_handle openedWorld 1%positive = true
  /\ valid_options openedWorld (Some 1%positive) = true
  /\ bundle openedWorld (Some 1%positive) ≫= gOptions_bitmap = None
  /\ nativeDecodeRegion 1%positive 0 0 50 50 (Some 1%positive) openedWorld
       = Some (Some 2%positive, freshWorld)
  /\ exists jb,
       bitmapObjs freshWorld !! 2%positive = Some jb
       /\ isPremultiplied (jbCreateFlags jb) = true.
Proof.
  assert (kBitmapCreateFlag_Premultiplied <> 0) as HK by (cbn; lia).
  assert (nativeDecodeRegion 1%positive 0 0 50 50 (Some 1%positive) openedWorld
            = Some (Some 2%positive, freshWorld)) as Hrun
    by (vm_compute; reflexivity).
  repeat (split; [done|]).
  destruct (fresh_bitmap_premultiplied_flag openedWorld 1%positive 0 0 50 50
              (Some 1%positive) 2%positive freshWorld HK eq_refl eq_refl eq_refl Hrun)
    as (jb & _ & Hjb & Hiff).
  exists jb. split; [exact Hjb|]. by apply Hiff.
Defined.

(** The cancelled call returns with the list of guards as it was. *)
Lemma guard_witness :
  live_handle openedWorld 1%positive = true
  /\ valid_options openedWorld (Some 2%positive) = true
  /\ exists r w',
       nativeDecodeRegion 1%positive 0 0 50 50 (Some 2%positive) openedWorld
         = Some (r, w')
       /\ gAutoDecoderCancel w' = gAutoDecoderCancel openedWorld.
Proof.
  repeat (split; [reflexivity|]).
  destruct (guard_unregistered_on_every_exit 1%positive 0 0 50 50 (Some 2%positive))
    as (Hkeep & Hreturns & _).
  destruct (Hreturns openedWorld eq_refl eq_refl) as (r & w' & Hrun & _).
  exists r, w'. split; [exact Hrun|]. exact (Hkeep _ _ _ Hrun).
Defined.

(** The cancelled call leaves -1, -1 and null in its bundle. *)
Lemma outputs_reset_witness :
  live_handle openedWorld 1%positive = true
  /\ valid_options openedWorld (Some 2%positive) = true
  /\ optionsObjs openedWorld !! 2%positive = Some (with_mCancel true freshOptions)
  /\ nativeDecodeRegion 1%positive 0 0 50 50 (Some 2%positive) openedWorld
       = Some (None, cancelledWorld)
  /\ exists opts',
       optionsObjs cancelledWorld !! 2%positive = Some opts'
       /\ gOptions_width opts' = -1
       /\ gOptions_height opts' = -1
       /\ gOptions_mime opts' = None.
Proof.
  assert (nativeDecodeRegion 1%positive 0 0 50 50 (Some 2%positive) openedWorld
            = Some (None, cancelledWorld)) as Hrun by (vm_compute; reflexivity).
  repeat (split; [done|]).
  exact (proj2 (outputs_reset_on_failure openedWorld 1%positive 0 0 50 50 2%positive
                  (with_mCancel true freshOptions) cancelledWorld
                  eq_refl eq_refl eq_refl Hrun)).
Defined.

(** * The entry points and the life of a handle on the concrete backend *)

Import ExamplePlatform.

(** The message for the toy backend's format is not cut. *)
Lemma index_failure_message_witness :
  (String.length "JPEG" <= 62)%nat
  /\ msg_index_failed "JPEG"
       = "Image failed to decode using JPEG decoder"%string.
Proof.
  assert (String.length "JPEG" <= 62)%nat as Hn by (cbn; lia).
  split; [exact Hn|].
  destruct (index_failure_message_fits "JPEG") as (_ & Hall & _).
  exact (Hall Hn).
Defined.

(** Bytes 2, 3 and 4 of the padded array are the 100 x 100 image. *)
Lemma byte_array_slice_witness :
  0 <= 2
  /\ 0 <= 3
  /\ 2 + 3 <= Z.of_nat (List.length paddedArray)
  /\ take 3 (drop 2 paddedArray) = goodStream
  /\ exists w',
       nativeNewInstanceFromByteArray paddedArray 2 3 false emptyWorld
         = Some (Some 1%positive, w')
       /\ streams w' !! 1%positive = Some goodStream
       /\ live_handle w' 1%positive = true.
Proof.
  assert (0 <= 2) as H0 by lia.
  assert (0 <= 3) as H1 by lia.
  assert (2 + 3 <= Z.of_nat (List.length paddedArray)) as H2 by (cbn; lia).
  repeat (split; [done|]).
  destruct (byte_array_slice_opened paddedArray 2 3 false emptyWorld H0 H1 H2)
    as (_ & r & w' & Hrun & Hopen & _).
  pose proof Hrun as Hr. vm_compute in Hr. injection Hr as <- <-.
  eexists. split; [exact Hrun|].
  destruct Hopen as (p & brd & dec & _ & Hst & _ & _ & _ & _ & _ & Hlive).
  split; [reflexivity|exact Hlive].
Defined.

(** A failed decode leaves stream 1 with decoder 1. *)
Lemma decode_leaves_native_heap_witness :
  nativeDecodeRegion 1%positive (-5) 90 200 20 None openedWorld
    = Some (None, failedWorld)
  /\ streams failedWorld = streams openedWorld
  /\ regionDecoders failedWorld = regionDecoders openedWorld
  /\ owned_stream 1%positive failedWorld = Some (Some 1%positive).
Proof.
  assert (nativeDecodeRegion 1%positive (-5) 90 200 20 None openedWorld
            = Some (None, failedWorld)) as Hrun by (vm_compute; reflexivity).
  destruct (decode_leaves_native_heap _ _ _ _ _ _ _ _ _ Hrun)
    as (_ & Hst & Hrd & _ & Hown).
  split; [exact Hrun|]. split; [exact Hst|]. split; [exact Hrd|].
  rewrite Hown. reflexivity.
Defined.

(** Opening stream 1, decoding once and cleaning leaves no handle and no
    stream 1; a second clean is undefined. *)
Lemma clean_releases_witness :
  createBitmapRegionDecoder 1%positive streamWorld
    = Some (Some 1%positive, createdWorld)
  /\ decode_calls createdWorld decodedWorld
  /\ exists w3,
       nativeClean 1%positive decodedWorld = Some (tt, w3)
       /\ regionDecoders w3 = ∅
       /\ streams w3 !! 1%positive = None
       /\ nativeClean 1%positive w3 = None.
Proof.
  assert (createBitmapRegionDecoder 1%positive streamWorld
            = Some (Some 1%positive, createdWorld)) as Hcreate
    by (vm_compute; reflexivity).
  assert (decode_calls createdWorld decodedWorld) as Hcalls.
  { apply (decode_calls_step createdWorld decodedWorld decodedWorld
             1%positive 0 0 50 50 None (Some 1%positive));
      [vm_compute; reflexivity | apply decode_calls_refl]. }
  split; [exact Hcreate|]. split; [exact Hcalls|].
  destruct (clean_releases_what_create_allocated _ _ _ _ _ Hcreate Hcalls)
    as (w3 & Hclean & Hrd & _ & Hst & _ & _ & _ & Hagain & _).
  exists w3. split; [exact Hclean|].
  split; [rewrite Hrd; reflexivity|].
  split; [rewrite Hst; apply lookup_delete_eq|].
  exact Hagain.
Defined.

(** The call with bundle 3 hands the backend the bundle's sample size 0,
    dither off, the color type of its config and bitmap 1 as target. *)
Lemma bundle_settings_witness :
  live_handle openedWorld 1%positive = true
  /\ valid_options openedWorld (Some 3%positive) = true
  /\ optionsObjs openedWorld !! 3%positive
       = Some (with_bitmap (Some 1%positive) freshOptions)
  /\ nativeDecodeRegion 1%positive 0 0 100 100 (Some 3%positive) openedWorld
       = Some (Some 1%positive, reusedWorld)
  /\ calls reusedWorld = calls openedWorld ++ calls reusedWorld
  /\ CallDecodeSubset 1%positive reuseDecoder reuseTarget
       (region_of 0 0 100 100) N32 ∈ calls reusedWorld
  /\ fSampleSize reuseDecoder = 0
  /\ fDitherImage reuseDecoder = false
  /\ fRequireUnpremultipliedColors reuseDecoder = false
  /\ fStream reuseDecoder = Some 1%positive.
Proof.
  assert (nativeDecodeRegion 1%positive 0 0 100 100 (Some 3%positive) openedWorld
            = Some (Some 1%positive, reusedWorld)) as Hrun
    by (vm_compute; reflexivity).
  assert (CallDecodeSubset 1%positive reuseDecoder reuseTarget
            (region_of 0 0 100 100) N32 ∈ calls reusedWorld) as Hin.
  { assert (calls reusedWorld =
              [CallSetDitherImage 1%positive false;
               CallSetPreferQualityOverSpeed 1%positive false;
               CallSetRequireUnpremultipliedColors 1%positive false;
               CallSetSampleSize 1%positive 0;
               CallDecodeSubset 1%positive reuseDecoder reuseTarget
                 (region_of 0 0 100 100) N32;
               CallGetFormat 1%positive;
               CallNotifyPixelsChanged
                 {| bmWidth := 100; bmHeight := 100;
                    fPixelRef := Some 7%positive |}]) as ->
      by (vm_compute; reflexivity).
    do 4 (apply elem_of_cons; right). apply elem_of_cons. by left. }
  do 6 (split; [done|]).
  destruct (bundle_settings_reach_backend openedWorld 1%positive 0 0 100 100
              3%positive (with_bitmap (Some 1%positive) freshOptions)
              (Some 1%positive) reusedWorld (calls reusedWorld)
              1%positive reuseDecoder reuseTarget (region_of 0 0 100 100) N32
              eq_refl eq_refl eq_refl Hrun eq_refl Hin)
    as (brd & dec & Hb & Hd & _ & Hs & Hdi & _ & Hu & _ & _ & _ & Hst & _).
  vm_compute in Hb. injection Hb as <-.
  vm_compute in Hd. injection Hd as <-.
  split; [exact Hs|]. split; [exact Hdi|]. split; [exact Hu|]. exact Hst.
Defined.


(** The two requests on handle 1 both return, and the handle is live
    afterwards. *)
Lemma well_formed_requests_witness :
  Forall (fun rq => live_handle openedWorld (rq_handle rq) = true
                    /\ valid_options openedWorld (rq_options rq) = true)
         twoRequests
  /\ exists bs w',
       decode_all twoRequests openedWorld = Some (bs, w')
       /\ List.length bs = 2%nat
       /\ live_handle w' 1%positive = true.
Proof.
  assert (Forall (fun rq => live_handle openedWorld (rq_handle rq) = true
                            /\ valid_options openedWorld (rq_options rq) = true)
                 twoRequests) as Hrs.
  { apply Forall_cons. split; [by split|].
    apply Forall_cons. split; [by split|].
    by apply Forall_nil. }
  split; [exact Hrs|].
  destruct (well_formed_requests_all_return twoRequests openedWorld Hrs)
    as (bs & w' & Hrun & Hlen & Hlive & _).
  exists bs, w'. split; [exact Hrun|]. split; [exact Hlen|].
  exact (Hlive 1%positive eq_refl).
Defined.

(** Two handles on two copies of the image: cleaning both leaves no handle
    and neither stream. *)
Lemma handles_released_witness :
  createBitmapRegionDecoder 1%positive twoStreamWorld
    = Some (Some 1%positive, firstOpened)
  /\ createBitmapRegionDecoder 2%positive firstOpened
       = Some (Some 2%positive, bothOpened)
  /\ 1%positive <> 2%positive
  /\ decode_calls bothOpened bothOpened
  /\ exists w4 w5,
       nativeClean 1%positive bothOpened = Some (tt, w4)
       /\ streams w4 !! 2%positive = Some goodStream
       /\ nativeClean 2%positive w4 = Some (tt, w5)
       /\ regionDecoders w5 = ∅
       /\ streams w5 !! 2%positive = None.
Proof.
  assert (createBitmapRegionDecoder 1%positive twoStreamWorld
            = Some (Some 1%positive, firstOpened)) as Hc1
    by (vm_compute; reflexivity).
  assert (createBitmapRegionDecoder 2%positive firstOpened
            = Some (Some 2%positive, bothOpened)) as Hc2
    by (vm_compute; reflexivity).
  assert (1%positive <> 2%positive) as Hne by discriminate.
  pose proof (decode_calls_refl bothOpened) as Hcalls.
  repeat (split; [done|]).
  destruct (handles_released_independently _ _ _ _ _ _ _ _ Hc1 Hc2 Hne Hcalls)
    as (_ & w4 & Hclean1 & _ & _ & Hs2 & _ & w5 & Hclean2 & Hrd & _ & Hst).
  exists w4, w5. split; [exact Hclean1|].
  split; [rewrite Hs2; reflexivity|].
  split; [exact Hclean2|].
  split; [rewrite Hrd; reflexivity|].
  rewrite Hst. apply lookup_delete_eq.
Defined.

(** The decode with the fresh bundle creates Java bitmap 2 and leaves the
    allocator of decoder 1 empty. *)
Lemma storage_handed_over_witness :
  live_handle openedWorld 1%positive = true
  /\ valid_options openedWorld (Some 1%positive) = true
  /\ nativeDecodeRegion 1%positive 0 0 50 50 (Some 1%positive) openedWorld
       = Some (Some 2%positive, freshWorld)
  /\ exists jb dec',
       bitmapObjs freshWorld = <[2%positive := jb]> (bitmapObjs openedWorld)
       /\ decoders freshWorld !! 1%positive = Some dec'
       /\ fAllocator dec' = Some {| fStorageObj := None |}.
Proof.
  assert (nativeDecodeRegion 1%positive 0 0 50 50 (Some 1%positive) openedWorld
            = Some (Some 2%positive, freshWorld)) as Hrun
    by (vm_compute; reflexivity).
  repeat (split; [done|]).
  pose proof (storage_handed_over_once openedWorld 1%positive 0 0 50 50
                (Some 1%positive) (Some 2%positive) freshWorld
                eq_refl eq_refl Hrun) as Hx.
  assert (bundle openedWorld (Some 1%positive) ≫= gOptions_bitmap = None) as E
    by reflexivity.
  rewrite E in Hx.
  destruct Hx as (brd & dec' & jb & self & rect & pref & new
                  & _ & Hbm & Hb & _ & _ & _ & Hd & Ha).
  vm_compute in Hb. injection Hb as <-.
  exists jb, dec'. split; [exact Hbm|]. split; [exact Hd|]. exact Ha.
Defined.
